(** * MotoPick: the PLCnext variable-access client

    A shallow embedding of [src/MotoPick/grpc_client.py] (class
    [GrpcClient]) and the properties of its dual-mode read/write
    interface: the simulated variable store, the typed-value
    marshalling and the fallback to simulation.

    Conventions of the embedding.
    - Python values are the scalar kinds the client handles
      ([None], [bool], [int], [float], [str]); [int] is unbounded ([Z]),
      [float] is an IEEE 754 binary64 number ([spec_float] at precision
      53, maximal exponent 1024), [str] is ASCII text.
    - A method is a function from the object [self] to an outcome (a
      returned value or a raised exception), the object after the call
      and the effects the call had on the outside (log records, remote
      calls), in the order they happened.
    - Names the module looks up but never binds ([GRPC_AVAILABLE],
      [plcnext_pb2], [plcnext_pb2_grpc]) are fields of [Globals]; the
      [grpc] library and the interpreter's float/text conversions are
      fields of [Lib]. *)

From Stdlib Require Import ZArith String Ascii List Floats.SpecFloat Lia.
From stdpp Require Import base option list gmap strings pretty.

Local Open Scope string_scope.
Local Open Scope list_scope.
Local Open Scope Z_scope.

(** ** Python values and exceptions *)

Inductive pyval : Type :=
  | PyNone
  | PyBool (b : bool)
  | PyInt (z : Z)
  | PyFloat (f : spec_float)
  | PyStr (s : string).

Inductive exn_class : Type :=
  | NameError | AttributeError | TypeError | ValueError | OverflowError
  | RpcError.

(** An exception [e]: its class and the text [str(e)]. All classes
    derive from [Exception]. *)
Record exn : Type := Exn { exn_kind : exn_class; exn_text : string }.

Inductive outcome (A : Type) : Type :=
  | Return (a : A)
  | Raise (e : exn).
Arguments Return {A} a.
Arguments Raise {A} e.

(** Looking up a global name that was never bound. *)
Definition name_error (name : string) : exn :=
  Exn NameError ("name '" +:+ name +:+ "' is not defined").

(** ** Floats: binary64 *)

Definition prec64 : Z := 53.
Definition emax64 : Z := 1024.

Definition float_zero : spec_float := S754_zero false.

(** The double nearest to the rational [p / q] (ties to even), with sign
    [s]: the quotient is computed with enough bits for a correct
    rounding, as [SFdiv] does for two doubles. *)
Definition nearest_double (s : bool) (p q : positive) : spec_float :=
  let '(mz, ez, lz) := SFdiv_core_binary prec64 emax64 (Zpos p) 0 (Zpos q) 0 in
  binary_round_aux prec64 emax64 s mz ez lz.

(** The integer nearest to [a / b], for [0 < b]; a tie goes to the even
    neighbour. *)
Definition div_half_even (a b : Z) : Z :=
  let q := a / b in
  let r := a mod b in
  match 2 * r ?= b with
  | Lt => q
  | Gt => q + 1
  | Eq => if Z.even q then q else q + 1
  end.

(** [x * 10^6] rounded to the nearest integer (ties to even), for the
    magnitude [m * 2^e] of a finite float. *)
Definition scaled6 (m : positive) (e : Z) : Z :=
  match e with
  | Zneg k => div_half_even (Zpos m * 10 ^ 6) (2 ^ Zpos k)
  | _ => Zpos m * 2 ^ e * 10 ^ 6
  end.

(** [round(x, 6)] on a float: the exact binary value is rounded
    correctly to six decimals (ties to even) and the decimal result is
    converted back to the nearest double; zeros, infinities and NaN
    round to themselves and the sign is kept. *)
Definition py_round6 (x : spec_float) : spec_float :=
  match x with
  | S754_finite s m e =>
      match scaled6 m e with
      | Zpos n => nearest_double s n (10 ^ 6)%positive
      | _ => S754_zero s
      end
  | _ => x
  end.

(** [float(z)] on an int: the nearest double, [None] when it is beyond
    the largest finite double (OverflowError). *)
Definition float_of_int (z : Z) : option spec_float :=
  match binary_normalize prec64 emax64 z 0 false with
  | S754_infinity _ => None
  | f => Some f
  end.

(** [int(f)] on a finite float: truncation toward zero. *)
Definition trunc_float (s : bool) (m : positive) (e : Z) : Z :=
  let a := match e with
           | Zneg k => Zpos m / 2 ^ Zpos k
           | _ => Zpos m * 2 ^ e
           end in
  if s then - a else a.

(** ** Text *)

Definition code (c : ascii) : Z := Z.of_nat (nat_of_ascii c).

Definition ascii_text (s : string) : bool :=
  forallb (fun c => code c <? 128) (list_ascii_of_string s).

Definition upper_char (c : ascii) : ascii :=
  if (97 <=? code c) && (code c <=? 122)
  then ascii_of_nat (nat_of_ascii c - 32) else c.

(** [s.upper()] on ASCII text. *)
Fixpoint upper (s : string) : string :=
  match s with
  | EmptyString => EmptyString
  | String c r => String (upper_char c) (upper r)
  end.

(** Whitespace that [int()] skips around an ASCII literal. *)
Definition is_space (c : ascii) : bool :=
  ((9 <=? code c) && (code c <=? 13)) || (code c =? 32).

Definition digit_of (c : ascii) : option Z :=
  if (48 <=? code c) && (code c <=? 57) then Some (code c - 48) else None.

Fixpoint all_space (s : string) : bool :=
  match s with
  | EmptyString => true
  | String c r => is_space c && all_space r
  end.

Fixpoint lstrip (s : string) : string :=
  match s with
  | String c r => if is_space c then lstrip r else s
  | EmptyString => s
  end.

(** The digits of a decimal literal after its first digit: digits with
    single underscores between them, then only whitespace. [us] tells
    that the previous character was an underscore. *)
Fixpoint int_digits (acc : Z) (us : bool) (s : string) : option Z :=
  match s with
  | EmptyString => if us then None else Some acc
  | String c r =>
      match digit_of c with
      | Some d => int_digits (10 * acc + d) false r
      | None =>
          if us then None
          else if (code c =? 95) then int_digits acc true r
          else if all_space s then Some acc else None
      end
  end.

(** [int(s)] on text, base 10: optional whitespace, an optional sign, a
    decimal literal, optional whitespace; [None] when the text is not
    such a literal (ValueError). *)
Definition int_of_string (s : string) : option Z :=
  let body (r : string) : option Z :=
    match r with
    | String c r' => d ← digit_of c; int_digits d false r'
    | EmptyString => None
    end in
  match lstrip s with
  | String "+" r => body r
  | String "-" r => Z.opp <$> body r
  | r => body r
  end.

Definition hex_digit (n : Z) : string :=
  String (ascii_of_nat (Z.to_nat (if n <? 10 then 48 + n else 87 + n))) EmptyString.

Definition repr_char (quote : ascii) (c : ascii) : string :=
  if Ascii.eqb c quote then String "\" (String c EmptyString)
  else if code c =? 92 then "\\"
  else if code c =? 9 then "\t"
  else if code c =? 10 then "\n"
  else if code c =? 13 then "\r"
  else if (code c <? 32) || (code c =? 127)
       then "\x" +:+ hex_digit (code c / 16) +:+ hex_digit (code c mod 16)
  else String c EmptyString.

Definition double_quote : ascii := ascii_of_nat 34.

Definition has_char (c : ascii) (s : string) : bool :=
  existsb (Ascii.eqb c) (list_ascii_of_string s).

(** [repr(s)] on ASCII text: single quotes unless the text has a single
    quote and no double quote. *)
Definition repr_str (s : string) : string :=
  let quote : ascii :=
    if has_char "'" s && negb (has_char double_quote s) then double_quote else "'"%char in
  String quote
    (String.concat EmptyString (map (repr_char quote) (list_ascii_of_string s))
       +:+ String quote EmptyString).

(** ** The wire types of [plcnext_pb2] *)

(** Modelled from the spec: the message type [TypedValue] of the module
    [plcnext_pb2], which the repository does not contain. It is a tagged
    union with one member per scalar kind; the member names are the ones
    [_extract_value] and [_create_typed_value] use. [unset] is a value
    with no member set, [otherValue] a member the client does not know. *)
Inductive TypedValue : Type :=
  | unset
  | boolValue (b : bool)
  | int8Value (z : Z)
  | int16Value (z : Z)
  | int32Value (z : Z)
  | int64Value (z : Z)
  | uint8Value (z : Z)
  | uint16Value (z : Z)
  | uint32Value (z : Z)
  | uint64Value (z : Z)
  | floatValue (f : spec_float)
  | doubleValue (f : spec_float)
  | stringValue (s : string)
  | otherValue (member : string).

Record DataItem : Type := { portName : string; value : TypedValue }.

(** The integer members [_create_typed_value] assigns to. *)
Inductive int_member : Type := m_int16 | m_int32 | m_uint16 | m_uint32.

Definition int_member_value (k : int_member) (z : Z) : TypedValue :=
  match k with
  | m_int16 => int16Value z
  | m_int32 => int32Value z
  | m_uint16 => uint16Value z
  | m_uint32 => uint32Value z
  end.

(** What the module [plcnext_pb2] declares and the client depends on:
    the integers each integer member accepts (an assignment out of the
    declared range raises ValueError). *)
Record Pb2 : Type := { accepts : int_member -> Z -> bool }.

(** The stub of the data-access service: one call per request. *)
Record Stub : Type := {
  Read : list string -> outcome (list DataItem);
  Write : list DataItem -> outcome unit
}.

Inductive Channel : Type :=
  | SecureChannel (target : string)
  | InsecureChannel (target : string).

(** ** The environment of the module *)

(** The global names [grpc_client.py] reads without binding them; [None]
    is an unbound name. *)
Record Globals : Type := {
  GRPC_AVAILABLE : option bool;
  plcnext_pb2 : option Pb2;
  plcnext_pb2_grpc : option (Channel -> outcome Stub)
}.

(** The module as the repository has it: none of the three names is
    assigned or imported anywhere. *)
Definition source_globals : Globals :=
  {| GRPC_AVAILABLE := None; plcnext_pb2 := None; plcnext_pb2_grpc := None |}.

(** The libraries below the client: opening a channel with [grpc], and
    the interpreter's conversions between floats and text. *)
Record Lib : Type := {
  local_channel_credentials : outcome unit;
  secure_channel : string -> outcome Channel;
  insecure_channel : string -> outcome Channel;
  float_repr : spec_float -> string;
  float_of_string : string -> option spec_float
}.

(** ** Effects *)

Inductive level : Type := DEBUG | INFO | WARNING | ERROR.

Inductive event : Type :=
  | Log (lv : level) (msg : string)
  | RpcRead (names : list string)
  | RpcWrite (items : list DataItem).

(** ** The client object *)

Record GrpcClient : Type := {
  address : string;
  channel : option Channel;
  stub : option Stub;
  _connected : bool;
  _sim_data : gmap string pyval
}.

Definition set_channel (c : Channel) (self : GrpcClient) : GrpcClient :=
  {| address := address self; channel := Some c; stub := stub self;
     _connected := _connected self; _sim_data := _sim_data self |}.

Definition set_stub (s : Stub) (self : GrpcClient) : GrpcClient :=
  {| address := address self; channel := channel self; stub := Some s;
     _connected := _connected self; _sim_data := _sim_data self |}.

Definition set_connected (b : bool) (self : GrpcClient) : GrpcClient :=
  {| address := address self; channel := channel self; stub := stub self;
     _connected := b; _sim_data := _sim_data self |}.

Definition set_sim_data (d : gmap string pyval) (self : GrpcClient) : GrpcClient :=
  {| address := address self; channel := channel self; stub := stub self;
     _connected := _connected self; _sim_data := d |}.

(** ** Methods as state-passing computations *)

Definition M (A : Type) : Type :=
  GrpcClient -> outcome A * GrpcClient * list event.

Definition ret {A} (a : A) : M A := fun self => (Return a, self, []).

Definition raise {A} (e : exn) : M A := fun self => (Raise e, self, []).

Definition bind {A B} (m : M A) (k : A -> M B) : M B := fun self =>
  match m self with
  | (Return a, self1, t1) =>
      let '(r, self2, t2) := k a self1 in (r, self2, t1 ++ t2)
  | (Raise e, self1, t1) => (Raise e, self1, t1)
  end.

(** [try: body / except Exception as e: handler e]; what [body] did
    before it raised stays done. *)
Definition try_except {A} (body : M A) (handler : exn -> M A) : M A := fun self =>
  match body self with
  | (Raise e, self1, t1) =>
      let '(r, self2, t2) := handler e self1 in (r, self2, t1 ++ t2)
  | done => done
  end.

Definition lift {A} (o : outcome A) : M A := fun self => (o, self, []).

Definition get_self : M GrpcClient := fun self => (Return self, self, []).

Definition update_self (f : GrpcClient -> GrpcClient) : M unit :=
  fun self => (Return tt, f self, []).

Definition emit (ev : event) : M unit := fun self => (Return tt, self, [ev]).

Definition logger (lv : level) (msg : string) : M unit := emit (Log lv msg).

(** The value of a global name, or NameError. *)
Definition global {A} (name : string) (binding : option A) : M A :=
  match binding with
  | Some a => ret a
  | None => raise (name_error name)
  end.

(** The exception of [self.stub.<attr>] while the stub is [None]. *)
Definition no_stub (attr : string) : exn :=
  Exn AttributeError ("'NoneType' object has no attribute '" +:+ attr +:+ "'").

(** The value of an attribute of [self.stub], or AttributeError when
    the stub is still [None]. *)
Definition stub_attr (attr : string) : M Stub :=
  bind get_self (fun self =>
    match stub self with
    | Some s => ret s
    | None => raise (no_stub attr)
    end).

Declare Scope py_scope.
Delimit Scope py_scope with py.
Notation "x <- m ;; k" := (bind m (fun x => k))
  (at level 100, m at next level, right associativity) : py_scope.
Notation "m ;; k" := (bind m (fun _ => k))
  (at level 100, right associativity) : py_scope.
Local Open Scope py_scope.

Definition outcome_of {A} (r : outcome A * GrpcClient * list event) : outcome A :=
  r.1.1.
Definition self_of {A} (r : outcome A * GrpcClient * list event) : GrpcClient :=
  r.1.2.
Definition trace_of {A} (r : outcome A * GrpcClient * list event) : list event :=
  r.2.

(** ** Built-in conversions *)

Section Builtins.
Context (L : Lib).

(** [str(v)], also what an f-string puts for [{v}]. *)
Definition py_str (v : pyval) : string :=
  match v with
  | PyNone => "None"
  | PyBool true => "True"
  | PyBool false => "False"
  | PyInt z => pretty z
  | PyFloat f => float_repr L f
  | PyStr s => s
  end.

(** [bool(v)]: the truth value. *)
Definition py_bool (v : pyval) : bool :=
  match v with
  | PyNone => false
  | PyBool b => b
  | PyInt z => negb (z =? 0)
  | PyFloat (S754_zero _) => false
  | PyFloat _ => true
  | PyStr s => negb (String.eqb s EmptyString)
  end.

(** [int(v)]; the message of a bad literal shows at most 200 characters
    of its [repr]. *)
Definition py_int (v : pyval) : outcome Z :=
  match v with
  | PyNone =>
      Raise (Exn TypeError
        "int() argument must be a string, a bytes-like object or a real number, not 'NoneType'")
  | PyBool b => Return (if b then 1 else 0)
  | PyInt z => Return z
  | PyFloat (S754_zero _) => Return 0
  | PyFloat (S754_finite s m e) => Return (trunc_float s m e)
  | PyFloat (S754_infinity _) =>
      Raise (Exn OverflowError "cannot convert float infinity to integer")
  | PyFloat S754_nan =>
      Raise (Exn ValueError "cannot convert float NaN to integer")
  | PyStr s =>
      match int_of_string s with
      | Some z => Return z
      | None =>
          Raise (Exn ValueError
            ("invalid literal for int() with base 10: "
             +:+ String.substring 0 200 (repr_str s)))
      end
  end.

(** [float(v)]. *)
Definition py_float (v : pyval) : outcome spec_float :=
  match v with
  | PyNone =>
      Raise (Exn TypeError
        "float() argument must be a string or a real number, not 'NoneType'")
  | PyBool b => Return (if b then S754_finite false 4503599627370496 (-52)
                        else float_zero)
  | PyInt z =>
      match float_of_int z with
      | Some f => Return f
      | None => Raise (Exn OverflowError "int too large to convert to float")
      end
  | PyFloat f => Return f
  | PyStr s =>
      match float_of_string L s with
      | Some f => Return f
      | None =>
          Raise (Exn ValueError
            ("could not convert string to float: " +:+ repr_str s))
      end
  end.
End Builtins.

(** ** The simulated variable space: [GrpcClient._init_sim_data] *)

(** [range(a, b)]. *)
Definition range (a b : nat) : list nat := seq a (b - a).

(** The format [{i:02d}]: decimal, zero-padded to two characters. *)
Definition fmt_02d (i : nat) : string :=
  let s := pretty i in
  if (String.length s <? 2)%nat then "0" +:+ s else s.

(** [data.update({k: v, ...})]: the items in order, a later one
    overwriting an earlier one with the same key. *)
Definition dict_update (data : gmap string pyval) (items : list (string * pyval))
  : gmap string pyval :=
  foldl (fun d kv => <[kv.1 := kv.2]> d) data items.

Definition system_items : list (string * pyval) :=
  [ ("Arp.Plc.Eclr/MotoPick.System.Running", PyBool false);
    ("Arp.Plc.Eclr/MotoPick.System.Connected", PyBool false);
    ("Arp.Plc.Eclr/MotoPick.System.Error", PyBool false);
    ("Arp.Plc.Eclr/MotoPick.System.ErrorCode", PyInt 0);
    ("Arp.Plc.Eclr/MotoPick.System.PicksPerMinute", PyFloat float_zero);
    ("Arp.Plc.Eclr/MotoPick.System.TotalPicks", PyInt 0);
    ("Arp.Plc.Eclr/MotoPick.System.MissedItems", PyInt 0) ].

Definition robot_items (i : nat) : list (string * pyval) :=
  let prefix := "Arp.Plc.Eclr/MotoPick.Robot" +:+ fmt_02d i in
  [ (prefix +:+ ".Enabled", PyBool (i <=? 2)%nat);
    (prefix +:+ ".Running", PyBool false);
    (prefix +:+ ".Error", PyBool false);
    (prefix +:+ ".ErrorCode", PyInt 0);
    (prefix +:+ ".PicksPerMinute", PyFloat float_zero);
    (prefix +:+ ".TotalPicks", PyInt 0);
    (prefix +:+ ".Efficiency", PyFloat float_zero);
    (prefix +:+ ".X", PyFloat float_zero);
    (prefix +:+ ".Y", PyFloat float_zero);
    (prefix +:+ ".Z", PyFloat float_zero) ].

Definition conveyor_items (i : nat) : list (string * pyval) :=
  let prefix := "Arp.Plc.Eclr/MotoPick.Conveyor" +:+ fmt_02d i in
  [ (prefix +:+ ".Enabled", PyBool (i <=? 2)%nat);
    (prefix +:+ ".Running", PyBool false);
    (prefix +:+ ".Speed", PyFloat float_zero);
    (prefix +:+ ".ActualSpeed", PyFloat float_zero);
    (prefix +:+ ".ItemsDetected", PyInt 0);
    (prefix +:+ ".ItemsLeft", PyInt 0) ].

Definition _init_sim_data : gmap string pyval :=
  let data := dict_update ∅ system_items in
  let data := foldl (fun data i => dict_update data (robot_items i)) data (range 1 9) in
  let data := foldl (fun data i => dict_update data (conveyor_items i)) data (range 1 17) in
  data.

(** ** Typed-value marshalling *)

(** A result record as the read methods build it: a dict literal, its
    keys in the order written. *)
Definition pydict : Type := list (string * pyval).

Definition keys (d : pydict) : list string := map fst d.

(** [d.get(k)]. *)
Fixpoint dict_get (d : pydict) (k : string) : option pyval :=
  match d with
  | [] => None
  | (k', v) :: r => if String.eqb k' k then Some v else dict_get r k
  end.

(** [x in (a, b, ...)] on text. *)
Definition in_ (x : string) (l : list string) : bool := existsb (String.eqb x) l.

Section Client.
Context (G : Globals) (L : Lib).

(** The value [_extract_value] returns for each member of the union:
    the [if]/[elif] chain over [WhichOneof]. *)
Definition decode_value (val : TypedValue) : pyval :=
  match val with
  | boolValue b => PyBool b
  | int8Value z => PyInt z
  | int16Value z => PyInt z
  | int32Value z => PyInt z
  | int64Value z => PyInt z
  | uint8Value z => PyInt z
  | uint16Value z => PyInt z
  | uint32Value z => PyInt z
  | uint64Value z => PyInt z
  | floatValue f => PyFloat (py_round6 f)
  | doubleValue f => PyFloat (py_round6 f)
  | stringValue s => PyStr s
  | unset | otherValue _ => PyNone
  end.

(** [GrpcClient._extract_value]: the Python value of a wire item; an
    exception is logged and turned into [None]. *)
Definition _extract_value (item : DataItem) : M pyval :=
  try_except
    (ret (decode_value (value item)))
    (fun e =>
       logger WARNING ("Value extraction error: " +:+ exn_text e) ;;
       ret PyNone).

(** [typed.<member> = z] for an integer member. *)
Definition assign_int (pb : Pb2) (k : int_member) (z : Z) : M TypedValue :=
  if accepts pb k z then ret (int_member_value k z)
  else raise (Exn ValueError ("Value out of range: " +:+ pretty z)).

(** The declared types [_create_typed_value] knows, after [upper]. *)
Definition declared_types : list string :=
  [ "BOOL"; "INT"; "INT16"; "DINT"; "INT32"; "UINT"; "UINT16"; "UDINT"; "UINT32";
    "LREAL"; "DOUBLE"; "FLOAT64"; "REAL"; "FLOAT"; "STRING"; "WSTRING" ].

(** The body of the [try] of [_create_typed_value]: the message is
    created, then one member is assigned, by the declared type or,
    failing that, by the value's own kind. [floatValue] carries the
    float handed to it; the message keeps it in single precision. *)
Definition _create_typed_value_try (value : pyval) (data_type : string) : M TypedValue :=
  pb <- global "plcnext_pb2" (plcnext_pb2 G) ;;
  let dt := upper data_type in
  if String.eqb dt "BOOL" then ret (boolValue (py_bool value))
  else if in_ dt ["INT"; "INT16"] then
    z <- lift (py_int value) ;; assign_int pb m_int16 z
  else if in_ dt ["DINT"; "INT32"] then
    z <- lift (py_int value) ;; assign_int pb m_int32 z
  else if in_ dt ["UINT"; "UINT16"] then
    z <- lift (py_int value) ;; assign_int pb m_uint16 z
  else if in_ dt ["UDINT"; "UINT32"] then
    z <- lift (py_int value) ;; assign_int pb m_uint32 z
  else if in_ dt ["LREAL"; "DOUBLE"; "FLOAT64"] then
    f <- lift (py_float L value) ;; ret (doubleValue f)
  else if in_ dt ["REAL"; "FLOAT"] then
    f <- lift (py_float L value) ;; ret (floatValue f)
  else if in_ dt ["STRING"; "WSTRING"] then
    ret (stringValue (py_str L value))
  else
    match value with
    | PyBool b => ret (boolValue b)
    | PyInt z => assign_int pb m_int32 z
    | PyFloat f => ret (doubleValue f)
    | _ => ret (stringValue (py_str L value))
    end.

(** [GrpcClient._create_typed_value]: the wire value of a Python
    value; an exception of the body is logged and raised again. *)
Definition _create_typed_value (value : pyval) (data_type : string) : M TypedValue :=
  try_except (_create_typed_value_try value data_type)
    (fun e =>
       logger ERROR ("Type conversion error: " +:+ exn_text e) ;;
       raise e).

(** ** Connection *)

(** [GrpcClient._connect]. *)
Definition _connect : M unit :=
  self <- get_self ;;
  c <- (if String.prefix "unix://" (address self) then
          _ <- lift (local_channel_credentials L) ;;
          lift (secure_channel L (address self))
        else
          lift (insecure_channel L (address self))) ;;
  update_self (set_channel c) ;;
  mk_stub <- global "plcnext_pb2_grpc" (plcnext_pb2_grpc G) ;;
  s <- lift (mk_stub c) ;;
  update_self (set_stub s) ;;
  update_self (set_connected true) ;;
  logger INFO ("gRPC connected to " +:+ address self).

(** [GrpcClient.__init__], on the object it initialises. *)
Definition __init__ (addr : string) : outcome unit * GrpcClient * list event :=
  let self := {| address := addr; channel := None; stub := None;
                 _connected := false; _sim_data := _init_sim_data |} in
  (flag <- global "GRPC_AVAILABLE" (GRPC_AVAILABLE G) ;;
   if flag : bool then
     try_except _connect
       (fun e =>
          logger ERROR ("gRPC connection failed: " +:+ exn_text e
                        +:+ ". Switching to simulation mode.") ;;
          update_self (set_connected false))
   else
     logger INFO "Running in simulation mode (no gRPC)") self.

(** The expression [GrpcClient(addr)]: the new object, unless
    [__init__] raises. *)
Definition new_GrpcClient (addr : string) : outcome GrpcClient * list event :=
  match __init__ addr with
  | (Return _, self, t) => (Return self, t)
  | (Raise e, _, t) => (Raise e, t)
  end.

(** The property [GrpcClient.is_connected]:
    [self._connected and GRPC_AVAILABLE]; the name on the right is
    looked up only when the left operand is true. *)
Definition is_connected : M bool :=
  self <- get_self ;;
  if _connected self then global "GRPC_AVAILABLE" (GRPC_AVAILABLE G)
  else ret false.

(** ** Reading and writing *)

(** [self.stub.Read(request)] for a request with these names. *)
Definition stub_Read (names : list string) : M (list DataItem) :=
  s <- stub_attr "Read" ;;
  emit (RpcRead names) ;;
  lift (Read s names).

(** [self.stub.Write(request)] for a request with these items. *)
Definition stub_Write (items : list DataItem) : M unit :=
  s <- stub_attr "Write" ;;
  emit (RpcWrite items) ;;
  lift (Write s items).

Definition sim_lookup (self : GrpcClient) (name : string) : pyval :=
  default PyNone (_sim_data self !! name).

(** [GrpcClient.read_single]. *)
Definition read_single (port_name : string) : M pydict :=
  live <- is_connected ;;
  if negb live then
    self <- get_self ;;
    let value := sim_lookup self port_name in
    ret [ ("port_name", PyStr port_name); ("value", value);
          ("success", PyBool true); ("simulated", PyBool true) ]
  else
    try_except
      (_ <- global "plcnext_pb2" (plcnext_pb2 G) ;;
       dataItems <- stub_Read [port_name] ;;
       match dataItems with
       | item :: _ =>
           v <- _extract_value item ;;
           ret [ ("port_name", PyStr port_name); ("value", v);
                 ("success", PyBool true); ("simulated", PyBool false) ]
       | [] =>
           ret [ ("port_name", PyStr port_name); ("value", PyNone);
                 ("success", PyBool false) ]
       end)
      (fun e =>
         logger ERROR ("Read error for " +:+ port_name +:+ ": " +:+ exn_text e) ;;
         ret [ ("port_name", PyStr port_name); ("value", PyNone);
               ("success", PyBool false); ("error", PyStr (exn_text e)) ]).

(** The block under [try] in [read_single] (lines 123 to 133), on its
    own: what it returns, or the exception the handler of line 134
    catches. *)
Definition read_single_try (port_name : string) : M pydict :=
  _ <- global "plcnext_pb2" (plcnext_pb2 G) ;;
  dataItems <- stub_Read [port_name] ;;
  match dataItems with
  | item :: _ =>
      v <- _extract_value item ;;
      ret [ ("port_name", PyStr port_name); ("value", v);
            ("success", PyBool true); ("simulated", PyBool false) ]
  | [] =>
      ret [ ("port_name", PyStr port_name); ("value", PyNone);
            ("success", PyBool false) ]
  end.

(** The loop of [read_multiple] over the items of a reply. *)
Fixpoint collect_items (items : list DataItem) : M (list pydict) :=
  match items with
  | [] => ret []
  | item :: rest =>
      v <- _extract_value item ;;
      results <- collect_items rest ;;
      ret ([ ("port_name", PyStr (portName item)); ("value", v);
             ("success", PyBool true); ("simulated", PyBool false) ]
           :: results)
  end.

(** [GrpcClient.read_multiple]. *)
Definition read_multiple (port_names : list string) : M (list pydict) :=
  live <- is_connected ;;
  if negb live then
    self <- get_self ;;
    ret (map (fun name =>
                [ ("port_name", PyStr name); ("value", sim_lookup self name);
                  ("success", PyBool true); ("simulated", PyBool true) ])
             port_names)
  else
    try_except
      (_ <- global "plcnext_pb2" (plcnext_pb2 G) ;;
       dataItems <- stub_Read port_names ;;
       collect_items dataItems)
      (fun e =>
         logger ERROR ("Read multiple error: " +:+ exn_text e) ;;
         ret (map (fun name =>
                     [ ("port_name", PyStr name); ("value", PyNone);
                       ("success", PyBool false); ("error", PyStr (exn_text e)) ])
                  port_names)).

(** [GrpcClient.write_single]. *)
Definition write_single (port_name : string) (value : pyval) (data_type : string)
  : M bool :=
  live <- is_connected ;;
  if negb live then
    self <- get_self ;;
    update_self (set_sim_data (<[port_name := value]> (_sim_data self))) ;;
    logger DEBUG ("[SIM] Write " +:+ port_name +:+ " = " +:+ py_str L value) ;;
    ret true
  else
    try_except
      (typed_value <- _create_typed_value value data_type ;;
       _ <- global "plcnext_pb2" (plcnext_pb2 G) ;;
       let item := {| portName := port_name; value := typed_value |} in
       stub_Write [item] ;;
       ret true)
      (fun e =>
         logger ERROR ("Write error for " +:+ port_name +:+ "="
                       +:+ py_str L value +:+ ": " +:+ exn_text e) ;;
         ret false).

(** [GrpcClient.discover_axes]. *)
Definition discover_axes : M (list pyval) := ret [].

(** [GrpcClient.update_sim]. *)
Definition update_sim (port_name : string) (value : pyval) : M unit :=
  self <- get_self ;;
  update_self (set_sim_data (<[port_name := value]> (_sim_data self))).

(** [GrpcClient.get_sim_data]: a copy of the store. *)
Definition get_sim_data : M (gmap string pyval) :=
  self <- get_self ;;
  ret (_sim_data self).
End Client.


(** ** Sample environments and objects *)

(** A [grpc] library that opens every channel, with the text of the
    special floats; the text of a finite float is left symbolic. *)
Definition sample_lib : Lib :=
  {| local_channel_credentials := Return tt;
     secure_channel := fun a => Return (SecureChannel a);
     insecure_channel := fun a => Return (InsecureChannel a);
     float_repr := fun f =>
       match f with
       | S754_zero false => "0.0"
       | S754_zero true => "-0.0"
       | S754_infinity false => "inf"
       | S754_infinity true => "-inf"
       | S754_nan => "nan"
       | S754_finite _ _ _ => "<float>"
       end;
     float_of_string := fun s =>
       if String.eqb s "inf" then Some (S754_infinity false)
       else if String.eqb s "nan" then Some S754_nan
       else None |}.

(** Integer members declared with the width their names give. *)
Definition sample_pb2 : Pb2 :=
  {| accepts := fun k z =>
       match k with
       | m_int16 => (- 2 ^ 15 <=? z) && (z <? 2 ^ 15)
       | m_int32 => (- 2 ^ 31 <=? z) && (z <? 2 ^ 31)
       | m_uint16 => (0 <=? z) && (z <? 2 ^ 16)
       | m_uint32 => (0 <=? z) && (z <? 2 ^ 32)
       end |}.

(** A remote end that knows the single variable [X.Y] and leaves every
    other requested name out of its reply. *)
Definition sample_stub : Stub :=
  {| Read := fun names =>
       Return (map (fun n => {| portName := n; value := int32Value 42 |})
                   (List.filter (fun n => String.eqb n "X.Y") names));
     Write := fun _ => Return tt |}.

(** A remote end whose calls fail. *)
Definition failing_stub : Stub :=
  {| Read := fun _ => Raise (Exn RpcError "Deadline Exceeded");
     Write := fun _ => Raise (Exn RpcError "Deadline Exceeded") |}.

(** The module with its three names bound: the flag true, the message
    module and the stub class present. *)
Definition live_globals : Globals :=
  {| GRPC_AVAILABLE := Some true;
     plcnext_pb2 := Some sample_pb2;
     plcnext_pb2_grpc := Some (fun _ => Return sample_stub) |}.

(** The module with the flag bound to false. *)
Definition sim_globals : Globals :=
  {| GRPC_AVAILABLE := Some false; plcnext_pb2 := None; plcnext_pb2_grpc := None |}.

(** An object in simulation: initialised, never connected. *)
Definition sim_client : GrpcClient :=
  {| address := "localhost:50051"; channel := None; stub := None;
     _connected := false; _sim_data := _init_sim_data |}.

(** An object in live mode, connected to [sample_stub]. *)
Definition live_client : GrpcClient :=
  {| address := "localhost:50051";
     channel := Some (InsecureChannel "localhost:50051");
     stub := Some sample_stub;
     _connected := true; _sim_data := _init_sim_data |}.

(** An object in live mode whose remote calls fail. *)
Definition broken_client : GrpcClient :=
  {| address := "localhost:50051";
     channel := Some (InsecureChannel "localhost:50051");
     stub := Some failing_stub;
     _connected := true; _sim_data := _init_sim_data |}.

(** ** The default topology, as the specification lists it *)

Definition system_fields : list string :=
  [ "Running"; "Connected"; "Error"; "ErrorCode"; "PicksPerMinute";
    "TotalPicks"; "MissedItems" ].

Definition robot_fields : list string :=
  [ "Enabled"; "Running"; "Error"; "ErrorCode"; "PicksPerMinute";
    "TotalPicks"; "Efficiency"; "X"; "Y"; "Z" ].

Definition conveyor_fields : list string :=
  [ "Enabled"; "Running"; "Speed"; "ActualSpeed"; "ItemsDetected"; "ItemsLeft" ].

(** A unit index written with exactly two decimal digits. *)
Definition two_digits (i : nat) : string :=
  String (ascii_of_nat (48 + i / 10))
    (String (ascii_of_nat (48 + i mod 10)) EmptyString).

(** The variable [field] of [group] ([System], [Robot03], ...). *)
Definition port (group field : string) : string :=
  "Arp.Plc.Eclr/MotoPick." +:+ group +:+ "." +:+ field.

(** The variables of the units [1 .. count] of one kind. *)
Definition unit_ports (kind : string) (count : nat) (fields : list string)
  : list string :=
  flat_map (fun i => map (port (kind +:+ two_digits i)) fields) (seq 1 count).

Definition default_ports : list string :=
  map (port "System") system_fields
  ++ unit_ports "Robot" 8 robot_fields
  ++ unit_ports "Conveyor" 16 conveyor_fields.

Definition enabled_ports : list string :=
  unit_ports "Robot" 8 ["Enabled"] ++ unit_ports "Conveyor" 16 ["Enabled"].

Definition is_zero_or_false (v : pyval) : bool :=
  match v with
  | PyBool false | PyInt 0 | PyFloat (S754_zero false) => true
  | _ => false
  end.

(** ** The result records of the read methods *)

Definition sim_result (name : string) (v : pyval) : pydict :=
  [ ("port_name", PyStr name); ("value", v);
    ("success", PyBool true); ("simulated", PyBool true) ].

Definition live_result (name : string) (v : pyval) : pydict :=
  [ ("port_name", PyStr name); ("value", v);
    ("success", PyBool true); ("simulated", PyBool false) ].

Definition empty_result (name : string) : pydict :=
  [ ("port_name", PyStr name); ("value", PyNone); ("success", PyBool false) ].

Definition failed_result (name : string) (text : string) : pydict :=
  [ ("port_name", PyStr name); ("value", PyNone);
    ("success", PyBool false); ("error", PyStr text) ].

(** The integer members of the union. *)
Definition is_integer_wire (t : TypedValue) : bool :=
  match t with
  | int8Value _ | int16Value _ | int32Value _ | int64Value _
  | uint8Value _ | uint16Value _ | uint32Value _ | uint64Value _ => true
  | _ => false
  end.

(** The records the methods log. *)
Definition read_error (n : string) (e : exn) : event :=
  Log ERROR ("Read error for " +:+ n +:+ ": " +:+ exn_text e).

Definition read_multiple_error (e : exn) : event :=
  Log ERROR ("Read multiple error: " +:+ exn_text e).

Definition conversion_error (e : exn) : event :=
  Log ERROR ("Type conversion error: " +:+ exn_text e).

Definition write_error (L : Lib) (n : string) (v : pyval) (e : exn) : event :=
  Log ERROR ("Write error for " +:+ n +:+ "=" +:+ py_str L v +:+ ": " +:+ exn_text e).

(** The invariant of the result shape as the specification words it:
    any two results of [read_single], whatever the mode and the path,
    have the same fields, and [simulated] is one of them. *)
Definition uniform_read_shape : Prop :=
  forall (G G' : Globals) (self self' : GrpcClient) (n n' : string) (d d' : pydict),
    outcome_of (read_single G n self) = Return d ->
    outcome_of (read_single G' n' self') = Return d' ->
    keys d = keys d' /\ dict_get d "simulated" <> None.

(** The remote calls among the effects of a method. *)
Definition is_rpc (ev : event) : bool :=
  match ev with
  | RpcRead _ | RpcWrite _ => true
  | Log _ _ => false
  end.

Definition rpc_calls (t : list event) : list event := List.filter is_rpc t.

(** The declared types, after [upper], under which a value of each kind
    is sent in a member of its own kind: [AUTO] and the names of that
    kind. The single-precision names are left out: that member does not
    keep a double as it is. *)
Definition own_types (v : pyval) : list string :=
  match v with
  | PyNone => []
  | PyBool _ => ["AUTO"; "BOOL"]
  | PyInt _ =>
      ["AUTO"; "INT"; "INT16"; "DINT"; "INT32"; "UINT"; "UINT16"; "UDINT"; "UINT32"]
  | PyFloat _ => ["AUTO"; "LREAL"; "DOUBLE"; "FLOAT64"]
  | PyStr _ => ["AUTO"; "STRING"; "WSTRING"]
  end.

(** The channel [_connect] opens for an address: the local transport
    with the local credentials for the prefix [unix://], the plain
    network transport otherwise. *)
Definition open_channel (L : Lib) (addr : string) : outcome Channel :=
  if String.prefix "unix://" addr then
    match local_channel_credentials L with
    | Return _ => secure_channel L addr
    | Raise e => Raise e
    end
  else insecure_channel L addr.

(** The record the constructor logs when [_connect] has raised [e]. *)
Definition connection_failed (e : exn) : event :=
  Log ERROR ("gRPC connection failed: " +:+ exn_text e
             +:+ ". Switching to simulation mode.").

(** * The web application: [src/MotoPick/main.py] *)

(** ** Values and answers of the views *)

(** A JSON value: a scalar, an array or an object with its members in
    order. *)
#[local] Unset Elimination Schemes.
Inductive json : Type :=
  | JVal (v : pyval)
  | JArr (items : list json)
  | JObj (members : list (string * json)).
#[local] Set Elimination Schemes.

(** What a view returns: the value handed to [jsonify] and the status. *)
Record response : Type := { body : json; status : Z }.

(** What a view raises instead: an exception of the client, or the
    KeyError of a subscript. *)
Inductive failure : Type :=
  | Raised (e : exn)
  | KeyError (key : string).

Inductive answer : Type :=
  | Answer (r : response)
  | Fails (f : failure).

(** A view of the gRPC routes: its answer, the global [grpc_client]
    after the call and the effects outside. *)
Definition view : Type := answer * option GrpcClient * list event.

(** [jsonify(d)] for a result record. *)
Definition json_of_dict (d : pydict) : json :=
  JObj (map (fun kv => (kv.1, JVal kv.2)) d).

(** [d[k] = v] on a dict literal grown in a loop: an existing key keeps
    its place. *)
Fixpoint dict_set {A} (d : list (string * A)) (k : string) (v : A)
  : list (string * A) :=
  match d with
  | [] => [(k, v)]
  | (k', v') :: r =>
      if String.eqb k' k then (k', v) :: r else (k', v') :: dict_set r k v
  end.

Fixpoint dict_find {A} (d : list (string * A)) (k : string) : option A :=
  match d with
  | [] => None
  | (k', v) :: r => if String.eqb k' k then Some v else dict_find r k
  end.

(** [s.split(sep)] for a one-character separator. *)
Fixpoint split_on (sep : ascii) (s : string) : list string :=
  match s with
  | EmptyString => [EmptyString]
  | String c r =>
      if Ascii.eqb c sep then EmptyString :: split_on sep r
      else match split_on sep r with
           | h :: t => String c h :: t
           | [] => [String c EmptyString]
           end
  end.

(** [parts[-1]]. *)
Definition last_part (parts : list string) : string := List.last parts EmptyString.

(** [parts[-2] if len(parts) >= 2 else 'Unknown']. *)
Definition group_part (parts : list string) : string :=
  match rev parts with
  | _ :: g :: _ => g
  | _ => "Unknown"
  end.

Definition type_name (v : pyval) : string :=
  match v with
  | PyNone => "NoneType"
  | PyBool _ => "bool"
  | PyInt _ => "int"
  | PyFloat _ => "float"
  | PyStr _ => "str"
  end.

(** [r['port_name'].split('.')] for a result record [r]. *)
Definition port_name_parts (r : pydict) : list string + failure :=
  match dict_get r "port_name" with
  | Some (PyStr s) => inl (split_on "." s)
  | Some v =>
      inr (Raised (Exn AttributeError
             ("'" +:+ type_name v +:+ "' object has no attribute 'split'")))
  | None => inr (KeyError "port_name")
  end.

(** [r.get('value')]. *)
Definition value_of (r : pydict) : pyval := default PyNone (dict_get r "value").

(** ** The event log *)

(** An entry of [event_log]: a dict with the keys [timestamp], [level]
    and [message]. *)
Record log_entry : Type := {
  timestamp : string;
  entry_level : string;
  message : string
}.

Definition maxlen : nat := 500.

(** [q.append(x)] on a [deque(maxlen=500)], oldest entry first: when the
    deque is full the oldest entry is discarded. *)
Definition deque_append {A} (q : list A) (x : A) : list A :=
  drop (length (q ++ [x]) - maxlen) (q ++ [x]).

(** [add_event(message, level)] at the time [now]. *)
Definition add_event (now : string) (msg : string) (lv : string)
    (event_log : list log_entry) : list log_entry :=
  deque_append event_log
    {| timestamp := now; entry_level := lv; message := msg |}.

(** [l[start:]]: a negative [start] counts from the end, and either way
    it is clipped to the list. *)
Definition slice_from {A} (start : Z) (l : list A) : list A :=
  let len := Z.of_nat (length l) in
  let from := if start <? 0 then Z.max 0 (start + len) else Z.min start len in
  drop (Z.to_nat from) l.

(** [request.args.get('limit', 100, type=int)] for the text of the
    query parameter, if it is given. *)
Definition limit_arg (arg : option string) : Z :=
  match arg with
  | None => 100
  | Some s => default 100 (int_of_string s)
  end.

(** The view [get_events]: the entries it returns (under the key
    [events], with [success] true and the status 200). *)
Definition get_events (arg : option string) (event_log : list log_entry)
  : list log_entry :=
  slice_from (- limit_arg arg) event_log.

(** The view [clear_events]: the log after it. *)
Definition clear_events (event_log : list log_entry) : list log_entry := [].

(** ** The gRPC routes *)

(** The truth value of a parsed JSON value, as [not x] and [x or y]
    take it: [None], [False], zero, the empty text, the empty list and
    the empty dict are false. *)
Definition json_truth (x : json) : bool :=
  match x with
  | JVal v => py_bool v
  | JArr [] | JObj [] => false
  | JArr _ | JObj _ => true
  end.

(** [type(x).__name__]. *)
Definition json_type_name (x : json) : string :=
  match x with
  | JVal v => type_name v
  | JArr _ => "list"
  | JObj _ => "dict"
  end.

(** [data.get(key, dflt)]: the member under [key] of a dict ([JObj]
    lists the items of the dict, whose keys are distinct), [dflt] when
    there is none; a value that is no dict has no attribute [get]. *)
Definition json_get (data : json) (key : string) (dflt : json) : json + failure :=
  match data with
  | JObj members => inl (default dflt (dict_find members key))
  | _ => inr (Raised (Exn AttributeError
                ("'" +:+ json_type_name data +:+ "' object has no attribute 'get'")))
  end.

(** [request.get_json(silent=True) or {}], for the value [req] of
    [request.get_json(silent=True)]: any JSON value, [None] when the
    request has no JSON body. *)
Definition body_or_empty (req : json) : json :=
  if json_truth req then req else JObj [].

(** The exception of using a list or a dict as the key of a dict:
    neither can be hashed. *)
Definition unhashable (x : json) : exn :=
  Exn TypeError ("unhashable type: '" +:+ json_type_name x +:+ "'").

(** What the model says of a request to [/api/v1/read] or
    [/api/v1/write]. [Served v] is the run of the view. [Untyped] marks
    the requests the model of the client does not reach: the methods of
    [GrpcClient] are modelled on the arguments their signatures declare
    (a text [port_name], a text [data_type]) with scalar values and a
    store keyed by text, and the view handed the client something else
    that the client goes on to use. *)
Inductive routed : Type :=
  | Served (v : view)
  | Untyped.

Definition no_client (msg : string) (error_first : bool) : response :=
  {| body := JObj (if error_first
                   then [ ("error", JVal (PyStr msg)); ("success", JVal (PyBool false)) ]
                   else [ ("success", JVal (PyBool false)); ("error", JVal (PyStr msg)) ]);
     status := 503 |}.

Definition missing_port_name : response :=
  {| body := JObj [ ("error", JVal (PyStr "Missing port_name"));
                    ("success", JVal (PyBool false)) ];
     status := 400 |}.

Section Views.
Context (G : Globals) (L : Lib).

(** [init_grpc_client], given the environment variable [GRPC_ADDRESS]
    if it is set: the value returned, the global [grpc_client] after the
    call and the records logged. *)
Definition init_grpc_client (environ : option string) (grpc_client : option GrpcClient)
  : bool * option GrpcClient * list event :=
  let grpc_address := default "unix:///run/plcnext/grpc.sock" environ in
  match new_GrpcClient G L grpc_address with
  | (Return c, t) =>
      (true, Some c, t ++ [Log INFO ("gRPC client initialized: " +:+ grpc_address)])
  | (Raise e, t) =>
      (false, grpc_client, t ++ [Log ERROR ("gRPC init failed: " +:+ exn_text e)])
  end.

(** [grpc_client is not None]. *)
Definition has_client (grpc_client : option GrpcClient) : bool :=
  match grpc_client with
  | Some _ => true
  | None => false
  end.

(** [grpc_client is None or not grpc_client.is_connected]. *)
Definition sim_mode (grpc_client : option GrpcClient) : outcome bool :=
  match grpc_client with
  | None => Return true
  | Some c =>
      match outcome_of (is_connected G c) with
      | Return b => Return (negb b)
      | Raise e => Raise e
      end
  end.

(** The view [health_check] at the time [now]. *)
Definition health_check (now : string) (grpc_client : option GrpcClient) : answer :=
  match sim_mode grpc_client with
  | Raise e => Fails (Raised e)
  | Return sim =>
      Answer {| body := JObj [ ("status", JVal (PyStr "ok"));
                               ("grpc", JVal (PyBool (has_client grpc_client)));
                               ("simulation", JVal (PyBool sim));
                               ("timestamp", JVal (PyStr now)) ];
                status := 200 |}
  end.

(** The view [control_status]. *)
Definition control_status (grpc_client : option GrpcClient) : answer :=
  match sim_mode grpc_client with
  | Raise e => Fails (Raised e)
  | Return sim =>
      Answer {| body := JObj [ ("success", JVal (PyBool true));
                               ("connected", JVal (PyBool (negb sim)));
                               ("running", JVal (PyBool false));
                               ("format_loaded", JVal PyNone);
                               ("simulation", JVal (PyBool sim)) ];
                status := 200 |}
  end.

(** The view [read_variable], for the value [req] of
    [request.get_json(silent=True)]. A name that is not text reaches
    [read_single] as it is: [self.is_connected] is evaluated first; in
    simulation [self._sim_data.get(port_name, None)] raises for a list
    or a dict and finds nothing for a number or [True], the keys of the
    store being text; in live mode the name goes into a message, which
    the model does not reach. *)
Definition read_variable (req : json) (grpc_client : option GrpcClient) : routed :=
  match grpc_client with
  | None => Served (Answer (no_client "No gRPC client" true), None, [])
  | Some c =>
      match json_get (body_or_empty req) "port_name" (JVal PyNone) with
      | inr f => Served (Fails f, Some c, [])
      | inl port_name =>
          if negb (json_truth port_name)
          then Served (Answer missing_port_name, Some c, [])
          else
            match port_name with
            | JVal (PyStr n) =>
                match read_single G n c with
                | (Return result, c', t) =>
                    Served (Answer {| body := json_of_dict result; status := 200 |},
                            Some c', t)
                | (Raise e, c', t) => Served (Fails (Raised e), Some c', t)
                end
            | _ =>
                match outcome_of (is_connected G c) with
                | Raise e => Served (Fails (Raised e), Some c, [])
                | Return true => Untyped
                | Return false =>
                    match port_name with
                    | JVal v =>
                        Served (Answer {| body := json_of_dict
                                            [ ("port_name", v); ("value", PyNone);
                                              ("success", PyBool true);
                                              ("simulated", PyBool true) ];
                                          status := 200 |}, Some c, [])
                    | JArr _ | JObj _ =>
                        Served (Fails (Raised (unhashable port_name)), Some c, [])
                    end
                end
            end
      end
  end.

(** The view [write_variable], for the value [req] of
    [request.get_json(silent=True)]. With a text name, a scalar value
    and a text type the call is [write_single]. Otherwise
    [self.is_connected] is still evaluated first, and in simulation the
    assignment [self._sim_data[port_name] = value] raises for a name
    that is a list or a dict; the other requests are not reached by the
    model. *)
Definition write_variable (req : json) (grpc_client : option GrpcClient) : routed :=
  match grpc_client with
  | None => Served (Answer (no_client "No gRPC client" true), None, [])
  | Some c =>
      let data := body_or_empty req in
      match json_get data "port_name" (JVal PyNone) with
      | inr f => Served (Fails f, Some c, [])
      | inl port_name =>
      match json_get data "value" (JVal PyNone) with
      | inr f => Served (Fails f, Some c, [])
      | inl value =>
      match json_get data "type" (JVal (PyStr "AUTO")) with
      | inr f => Served (Fails f, Some c, [])
      | inl data_type =>
          if negb (json_truth port_name)
          then Served (Answer missing_port_name, Some c, [])
          else
            match port_name, value, data_type with
            | JVal (PyStr n), JVal v, JVal (PyStr dt) =>
                match write_single G L n v dt c with
                | (Return ok, c', t) =>
                    Served (Answer {| body := JObj [ ("success", JVal (PyBool ok)) ];
                                      status := if ok then 200 else 500 |},
                            Some c', t)
                | (Raise e, c', t) => Served (Fails (Raised e), Some c', t)
                end
            | _, _, _ =>
                match outcome_of (is_connected G c) with
                | Raise e => Served (Fails (Raised e), Some c, [])
                | Return true => Untyped
                | Return false =>
                    match port_name with
                    | JArr _ | JObj _ =>
                        Served (Fails (Raised (unhashable port_name)), Some c, [])
                    | JVal _ => Untyped
                    end
                end
            end
      end end end
  end.

(** The loop of [live_system]: [data[key] = r.get('value')] under the
    last part of each reported name. *)
Fixpoint collect_last (results : list pydict) (data : pydict) : pydict + failure :=
  match results with
  | [] => inl data
  | r :: rest =>
      match port_name_parts r with
      | inl parts => collect_last rest (dict_set data (last_part parts) (value_of r))
      | inr f => inr f
      end
  end.

Definition system_ports : list string :=
  [ "Arp.Plc.Eclr/MotoPick.System.Running";
    "Arp.Plc.Eclr/MotoPick.System.Error";
    "Arp.Plc.Eclr/MotoPick.System.PicksPerMinute";
    "Arp.Plc.Eclr/MotoPick.System.TotalPicks";
    "Arp.Plc.Eclr/MotoPick.System.MissedItems" ].

(** The end of the three live views: the collected data under [key],
    [success] true and [simulated] from [is_connected]. *)
Definition live_answer (key : string) (data : json) (c : GrpcClient) : answer :=
  match outcome_of (is_connected G c) with
  | Return live =>
      Answer {| body := JObj [ (key, data); ("success", JVal (PyBool true));
                               ("simulated", JVal (PyBool (negb live))) ];
                status := 200 |}
  | Raise e => Fails (Raised e)
  end.

(** The view [live_system]. *)
Definition live_system (grpc_client : option GrpcClient) : view :=
  match grpc_client with
  | None => (Answer (no_client "No gRPC connection" false), None, [])
  | Some c =>
      match read_multiple G system_ports c with
      | (Raise e, c', t) => (Fails (Raised e), Some c', t)
      | (Return results, c', t) =>
          match collect_last results [] with
          | inr f => (Fails f, Some c', t)
          | inl data => (live_answer "system" (json_of_dict data) c', Some c', t)
          end
      end
  end.

(** The loop of [live_robots] and [live_conveyors]: the values grouped
    under the last but one part of each reported name, then under the
    last part. *)
Fixpoint collect_groups (results : list pydict) (data : list (string * pydict))
  : list (string * pydict) + failure :=
  match results with
  | [] => inl data
  | r :: rest =>
      match port_name_parts r with
      | inl parts =>
          let key := group_part parts in
          let field := last_part parts in
          let data := match dict_find data key with
                      | Some _ => data
                      | None => dict_set data key []
                      end in
          let group := default [] (dict_find data key) in
          collect_groups rest (dict_set data key (dict_set group field (value_of r)))
      | inr f => inr f
      end
  end.

Definition json_of_groups (data : list (string * pydict)) : json :=
  JObj (map (fun kv => (kv.1, json_of_dict kv.2)) data).

(** The names a live view asks for: the given fields of the units
    [1 .. count] of one kind. *)
Definition unit_vars (kind : string) (fields : list string) (count : nat)
  : list string :=
  flat_map (fun i =>
              let prefix := "Arp.Plc.Eclr/MotoPick." +:+ kind +:+ fmt_02d i in
              map (fun f => prefix +:+ "." +:+ f) fields)
           (range 1 (count + 1)).

Definition live_units (key kind : string) (fields : list string) (count : nat)
    (grpc_client : option GrpcClient) : view :=
  match grpc_client with
  | None => (Answer (no_client "No gRPC connection" false), None, [])
  | Some c =>
      match read_multiple G (unit_vars kind fields count) c with
      | (Raise e, c', t) => (Fails (Raised e), Some c', t)
      | (Return results, c', t) =>
          match collect_groups results [] with
          | inr f => (Fails f, Some c', t)
          | inl data => (live_answer key (json_of_groups data) c', Some c', t)
          end
      end
  end.

(** The view [live_robots], for a project with [robot_count] robots. *)
Definition live_robots (robot_count : nat) : option GrpcClient -> view :=
  live_units "robots" "Robot" ["Running"; "Error"; "PicksPerMinute"; "TotalPicks"]
    robot_count.

(** The view [live_conveyors], for a project with [feed_count] feeds. *)
Definition live_conveyors (feed_count : nat) : option GrpcClient -> view :=
  live_units "conveyors" "Conveyor" ["Running"; "Speed"; "ActualSpeed"] feed_count.
End Views.

(** [data[group][field]] for the grouped data of a live view, when
    both keys are there. *)
Definition group_field (data : list (string * pydict)) (group field : string)
  : option pyval :=
  match dict_find data group with
  | Some g => dict_get g field
  | None => None
  end.

(** The group and the field of each name of [unit_vars], in order. *)
Definition unit_items (kind : string) (fields : list string) (count : nat)
  : list (string * string) :=
  flat_map (fun i => map (fun f => (kind +:+ fmt_02d i, f)) fields)
           (range 1 (count + 1)).

(** [data[group][field] = v], the group being created when it is not
    there: one round of the loop of [collect_groups]. *)
Definition put_field (data : list (string * pydict)) (group field : string)
    (v : pyval) : list (string * pydict) :=
  let data := match dict_find data group with
              | Some _ => data
              | None => dict_set data group []
              end in
  dict_set data group (dict_set (default [] (dict_find data group)) field v).

(** The key under which [live_system] files a reported name: what
    follows its last dot. *)
Definition field_of (name : string) : string := last_part (split_on "." name).

(** * Properties *)

(** ** Running the small steps *)

Lemma is_connected_run (G : Globals) (self : GrpcClient) :
  is_connected G self =
  (if _connected self
   then match GRPC_AVAILABLE G with
        | Some b => Return b
        | None => Raise (name_error "GRPC_AVAILABLE")
        end
   else Return false, self, []).
Proof.
  unfold is_connected, bind, get_self, global, ret, raise.
  destruct (_connected self); [destruct (GRPC_AVAILABLE G)|]; reflexivity.
Qed.

Lemma is_connected_returns (G : Globals) (self : GrpcClient) (b : bool) :
  outcome_of (is_connected G self) = Return b ->
  is_connected G self = (Return b, self, []).
Proof.
  rewrite is_connected_run. unfold outcome_of. simpl. intros ->. reflexivity.
Qed.

Lemma extract_value_run (item : DataItem) (self : GrpcClient) :
  _extract_value item self = (Return (decode_value (value item)), self, []).
Proof. reflexivity. Qed.

(** In simulation the three operations are these. *)
Lemma read_single_sim (G : Globals) (self : GrpcClient) (n : string) :
  outcome_of (is_connected G self) = Return false ->
  read_single G n self = (Return (sim_result n (sim_lookup self n)), self, []).
Proof.
  intros H. unfold read_single, bind.
  rewrite (is_connected_returns _ _ _ H). reflexivity.
Qed.

Lemma read_multiple_sim (G : Globals) (self : GrpcClient) (ns : list string) :
  outcome_of (is_connected G self) = Return false ->
  read_multiple G ns self =
  (Return (map (fun n => sim_result n (sim_lookup self n)) ns), self, []).
Proof.
  intros H. unfold read_multiple, bind.
  rewrite (is_connected_returns _ _ _ H). reflexivity.
Qed.

Lemma write_single_sim (G : Globals) (L : Lib) (self : GrpcClient)
    (n : string) (v : pyval) (dt : string) :
  outcome_of (is_connected G self) = Return false ->
  write_single G L n v dt self =
  (Return true, set_sim_data (<[n := v]> (_sim_data self)) self,
   [Log DEBUG ("[SIM] Write " +:+ n +:+ " = " +:+ py_str L v)]).
Proof.
  intros H. unfold write_single, bind.
  rewrite (is_connected_returns _ _ _ H). reflexivity.
Qed.

Lemma is_connected_set_sim_data (G : Globals) (self : GrpcClient)
    (d : gmap string pyval) :
  is_connected G (set_sim_data d self) =
  (outcome_of (is_connected G self), set_sim_data d self, []).
Proof. rewrite !is_connected_run. reflexivity. Qed.

(** ** Simulation: round trip, missing keys, frame *)

(** C3. In simulation, [write_single(n, v)] returns [True] for every
    name and value, and the [read_single(n)] that follows returns
    exactly [v], with [success] and [simulated] both [True]. *)
Theorem sim_write_then_read (G : Globals) (L : Lib) (self : GrpcClient)
    (n : string) (v : pyval) (dt : string) :
  outcome_of (is_connected G self) = Return false ->
  let after := write_single G L n v dt self in
  outcome_of after = Return true /\
  outcome_of (read_single G n (self_of after)) =
    Return [ ("port_name", PyStr n); ("value", v);
             ("success", PyBool true); ("simulated", PyBool true) ].
Proof.
  intros H after. subst after. rewrite (write_single_sim _ _ _ _ _ _ H).
  split; [reflexivity|]. unfold self_of. simpl.
  rewrite read_single_sim.
  - unfold outcome_of, sim_result, sim_lookup. simpl.
    rewrite lookup_insert_eq. reflexivity.
  - rewrite is_connected_set_sim_data. exact H.
Qed.

Lemma sim_write_then_read_witness :
  outcome_of (is_connected source_globals sim_client) = Return false /\
  outcome_of (write_single source_globals sample_lib "X.Y" (PyInt 42) "AUTO" sim_client)
    = Return true /\
  outcome_of (read_single source_globals "X.Y"
                (self_of (write_single source_globals sample_lib "X.Y" (PyInt 42)
                            "AUTO" sim_client))) =
    Return [ ("port_name", PyStr "X.Y"); ("value", PyInt 42);
             ("success", PyBool true); ("simulated", PyBool true) ].
Proof.
  split; [reflexivity|].
  apply (sim_write_then_read source_globals sample_lib sim_client "X.Y" (PyInt 42) "AUTO").
  reflexivity.
Defined.

(** C4. In simulation, reading a name the store does not hold succeeds:
    the result has [success] [True] and the value [None]. *)
Theorem sim_read_missing_key (G : Globals) (self : GrpcClient) (n : string) :
  outcome_of (is_connected G self) = Return false ->
  _sim_data self !! n = None ->
  outcome_of (read_single G n self) =
    Return [ ("port_name", PyStr n); ("value", PyNone);
             ("success", PyBool true); ("simulated", PyBool true) ].
Proof.
  intros H Hn. rewrite (read_single_sim _ _ _ H).
  unfold outcome_of, sim_result, sim_lookup. simpl. rewrite Hn. reflexivity.
Qed.

Lemma sim_read_missing_key_witness :
  outcome_of (read_single sim_globals "No.Such.Port" sim_client) =
    Return [ ("port_name", PyStr "No.Such.Port"); ("value", PyNone);
             ("success", PyBool true); ("simulated", PyBool true) ].
Proof.
  apply (sim_read_missing_key sim_globals sim_client "No.Such.Port").
  - reflexivity.
  - vm_compute. reflexivity.
Defined.

(** C10. In simulation the reads change nothing: the object is the same
    after the call and nothing is logged or sent. [write_single(n, v)]
    replaces the store by the store with [n] bound to [v]: the entry for
    [n] is [v], every other key keeps its value, nothing else of the
    object changes, and the only effect outside is one debug record. *)
Theorem sim_operations_frame (G : Globals) (L : Lib) (self : GrpcClient) :
  outcome_of (is_connected G self) = Return false ->
  (forall n, self_of (read_single G n self) = self /\
             trace_of (read_single G n self) = []) /\
  (forall ns, self_of (read_multiple G ns self) = self /\
              trace_of (read_multiple G ns self) = []) /\
  (forall n v dt,
     let after := write_single G L n v dt self in
     _sim_data (self_of after) = <[n := v]> (_sim_data self) /\
     _sim_data (self_of after) !! n = Some v /\
     (forall k, k <> n -> _sim_data (self_of after) !! k = _sim_data self !! k) /\
     address (self_of after) = address self /\
     channel (self_of after) = channel self /\
     stub (self_of after) = stub self /\
     _connected (self_of after) = _connected self /\
     trace_of after = [Log DEBUG ("[SIM] Write " +:+ n +:+ " = " +:+ py_str L v)]).
Proof.
  intros H. repeat split.
  - rewrite (read_single_sim _ _ _ H). reflexivity.
  - rewrite (read_single_sim _ _ _ H). reflexivity.
  - rewrite (read_multiple_sim _ _ _ H). reflexivity.
  - rewrite (read_multiple_sim _ _ _ H). reflexivity.
  - rewrite (write_single_sim _ _ _ _ _ _ H). reflexivity.
  - rewrite (write_single_sim _ _ _ _ _ _ H). unfold self_of. simpl.
    apply lookup_insert_eq.
  - intros k Hk. rewrite (write_single_sim _ _ _ _ _ _ H). unfold self_of. simpl.
    apply lookup_insert_ne. congruence.
  - rewrite (write_single_sim _ _ _ _ _ _ H). reflexivity.
  - rewrite (write_single_sim _ _ _ _ _ _ H). reflexivity.
  - rewrite (write_single_sim _ _ _ _ _ _ H). reflexivity.
  - rewrite (write_single_sim _ _ _ _ _ _ H). reflexivity.
  - rewrite (write_single_sim _ _ _ _ _ _ H). reflexivity.
Qed.

Lemma sim_operations_frame_witness :
  self_of (read_single sim_globals "X.Y" sim_client) = sim_client /\
  _sim_data (self_of (write_single sim_globals sample_lib "X.Y" (PyInt 42) "AUTO"
                        sim_client))
    !! "Arp.Plc.Eclr/MotoPick.Robot01.Enabled" = Some (PyBool true).
Proof.
  destruct (sim_operations_frame sim_globals sample_lib sim_client eq_refl)
    as (Hread & _ & Hwrite).
  split.
  - apply Hread.
  - destruct (Hwrite "X.Y" (PyInt 42) "AUTO") as (_ & _ & Hother & _).
    rewrite Hother; [vm_compute; reflexivity | discriminate].
Defined.

(** ** The default variable space *)

(** A check that holds of every entry holds of every binding. *)
Lemma map_forallb_lookup {A} (m : gmap string A) (f : string * A -> bool) :
  forallb f (map_to_list m) = true ->
  forall k v, m !! k = Some v -> f (k, v) = true.
Proof.
  intros H k v Hk. rewrite forallb_forall in H. apply H.
  apply list_elem_of_In, elem_of_map_to_list. exact Hk.
Qed.

Lemma default_ports_stored :
  forallb (fun k => bool_decide (is_Some (_init_sim_data !! k))) default_ports = true.
Proof. vm_compute. reflexivity. Qed.

Lemma other_defaults_checked :
  forallb (fun kv : string * pyval =>
             bool_decide (kv.1 ∈ enabled_ports) || is_zero_or_false kv.2)
    (map_to_list _init_sim_data) = true.
Proof. vm_compute. reflexivity. Qed.

(** C5. The default store holds exactly the 7 system variables, the 10
    fields of each of the robots 01..08 and the 6 fields of each of the
    conveyors 01..16, 183 keys in all, the unit index written with two
    digits; [Enabled] is [True] for the units 1 and 2 of each kind and
    [False] for the others, and every other variable is [False], [0] or
    [0.0]. *)
Theorem init_sim_data_default_topology :
  dom _init_sim_data = list_to_set default_ports /\
  NoDup default_ports /\
  length system_fields = 7%nat /\
  length robot_fields = 10%nat /\
  length conveyor_fields = 6%nat /\
  length default_ports = (7 + 8 * 10 + 16 * 6)%nat /\
  size _init_sim_data = 183%nat /\
  (forall i, (1 <= i <= 8)%nat ->
     _init_sim_data !! port ("Robot" +:+ two_digits i) "Enabled"
       = Some (PyBool (i <=? 2)%nat)) /\
  (forall i, (1 <= i <= 16)%nat ->
     _init_sim_data !! port ("Conveyor" +:+ two_digits i) "Enabled"
       = Some (PyBool (i <=? 2)%nat)) /\
  (forall k v, _init_sim_data !! k = Some v -> k ∉ enabled_ports ->
     is_zero_or_false v = true).
Proof.
  split; [apply (bool_decide_unpack _); vm_compute; reflexivity|].
  split; [apply (bool_decide_unpack _); vm_compute; reflexivity|].
  do 5 (split; [vm_compute; reflexivity|]).
  split; [|split].
  - intros i Hi.
    do 9 (destruct i as [|i]; [first [lia | vm_compute; reflexivity]|]). lia.
  - intros i Hi.
    do 17 (destruct i as [|i]; [first [lia | vm_compute; reflexivity]|]). lia.
  - intros k v Hk Hen.
    pose proof (map_forallb_lookup _ _ other_defaults_checked k v Hk) as Hkv.
    cbv beta in Hkv. apply orb_true_iff in Hkv as [Hkv|Hkv]; [|exact Hkv].
    apply bool_decide_eq_true in Hkv. exact (False_ind _ (Hen Hkv)).
Qed.

(** ** Typed-value encoding *)

Lemma create_typed_value_try_pure (G : Globals) (L : Lib) (v : pyval)
    (dt : string) (self : GrpcClient) :
  _create_typed_value_try G L v dt self =
  (outcome_of (_create_typed_value_try G L v dt self), self, []).
Proof.
  unfold _create_typed_value_try, outcome_of, bind, global, lift, ret, raise,
    assign_int.
  destruct (plcnext_pb2 G) as [pb|]; [|reflexivity]. simpl.
  repeat match goal with
         | |- context [if ?c then _ else _] => destruct c; simpl
         | |- context [match py_int ?x with _ => _ end] => destruct (py_int x); simpl
         | |- context [match py_float ?l ?x with _ => _ end] =>
             destruct (py_float l x); simpl
         end;
    try reflexivity; destruct v; simpl;
    repeat match goal with
           | |- context [if ?c then _ else _] => destruct c; simpl
           end; reflexivity.
Qed.

(** An exception of the body is logged and raised again, unchanged. *)
Lemma create_typed_value_reraises (G : Globals) (L : Lib) (v : pyval)
    (dt : string) (self : GrpcClient) (e : exn) :
  outcome_of (_create_typed_value_try G L v dt self) = Raise e ->
  _create_typed_value G L v dt self =
  (Raise e, self, [Log ERROR ("Type conversion error: " +:+ exn_text e)]).
Proof.
  intros H. unfold _create_typed_value, try_except.
  rewrite create_typed_value_try_pure, H. reflexivity.
Qed.

Lemma create_typed_value_returns (G : Globals) (L : Lib) (v : pyval)
    (dt : string) (self : GrpcClient) (t : TypedValue) :
  outcome_of (_create_typed_value_try G L v dt self) = Return t ->
  _create_typed_value G L v dt self = (Return t, self, []).
Proof.
  intros H. unfold _create_typed_value, try_except.
  rewrite create_typed_value_try_pure, H. reflexivity.
Qed.

(** ** Live mode, step by step *)

Lemma collect_items_run (items : list DataItem) (self : GrpcClient) :
  collect_items items self =
  (Return (map (fun it => live_result (portName it) (decode_value (value it))) items),
   self, []).
Proof.
  induction items as [|item rest IH]; [reflexivity|].
  simpl. unfold bind. rewrite extract_value_run, IH. reflexivity.
Qed.

Lemma read_single_live (G : Globals) (self : GrpcClient) (n : string) :
  outcome_of (is_connected G self) = Return true ->
  read_single G n self =
  match plcnext_pb2 G with
  | None =>
      (Return (failed_result n (exn_text (name_error "plcnext_pb2"))), self,
       [read_error n (name_error "plcnext_pb2")])
  | Some _ =>
      match stub self with
      | None =>
          (Return (failed_result n (exn_text (no_stub "Read"))), self,
           [read_error n (no_stub "Read")])
      | Some s =>
          match Read s [n] with
          | Return (item :: _) =>
              (Return (live_result n (decode_value (value item))), self, [RpcRead [n]])
          | Return [] => (Return (empty_result n), self, [RpcRead [n]])
          | Raise e =>
              (Return (failed_result n (exn_text e)), self,
               [RpcRead [n]; read_error n e])
          end
      end
  end.
Proof.
  intros H. unfold read_single, bind at 1.
  rewrite (is_connected_returns _ _ _ H). cbn [negb].
  cbv [try_except bind global stub_Read stub_attr get_self emit lift ret raise
         logger].
  destruct (plcnext_pb2 G); [|reflexivity]. simpl.
  destruct (stub self) as [s|]; [|reflexivity]. simpl.
  destruct (Read s [n]) as [[|item rest]|e]; reflexivity.
Qed.

Lemma read_multiple_live (G : Globals) (self : GrpcClient) (ns : list string) :
  outcome_of (is_connected G self) = Return true ->
  read_multiple G ns self =
  match plcnext_pb2 G with
  | None =>
      (Return (map (fun n => failed_result n (exn_text (name_error "plcnext_pb2"))) ns),
       self, [read_multiple_error (name_error "plcnext_pb2")])
  | Some _ =>
      match stub self with
      | None =>
          (Return (map (fun n => failed_result n (exn_text (no_stub "Read"))) ns),
           self, [read_multiple_error (no_stub "Read")])
      | Some s =>
          match Read s ns with
          | Return items =>
              (Return (map (fun it => live_result (portName it)
                                        (decode_value (value it))) items),
               self, [RpcRead ns])
          | Raise e =>
              (Return (map (fun n => failed_result n (exn_text e)) ns), self,
               [RpcRead ns; read_multiple_error e])
          end
      end
  end.
Proof.
  intros H. unfold read_multiple, bind at 1.
  rewrite (is_connected_returns _ _ _ H). cbn [negb].
  cbv [try_except bind global stub_Read stub_attr get_self emit lift ret raise
         logger].
  destruct (plcnext_pb2 G); [|reflexivity]. simpl.
  destruct (stub self) as [s|]; [|reflexivity]. simpl.
  destruct (Read s ns) as [items|e]; [|reflexivity].
  rewrite collect_items_run. reflexivity.
Qed.

Lemma write_single_live (G : Globals) (L : Lib) (self : GrpcClient)
    (n : string) (v : pyval) (dt : string) :
  outcome_of (is_connected G self) = Return true ->
  write_single G L n v dt self =
  match outcome_of (_create_typed_value_try G L v dt self) with
  | Raise e => (Return false, self, [conversion_error e; write_error L n v e])
  | Return t =>
      let item := {| portName := n; value := t |} in
      match stub self with
      | None => (Return false, self, [write_error L n v (no_stub "Write")])
      | Some s =>
          match Write s [item] with
          | Return _ => (Return true, self, [RpcWrite [item]])
          | Raise e => (Return false, self, [RpcWrite [item]; write_error L n v e])
          end
      end
  end.
Proof.
  intros H. unfold write_single, bind at 1.
  rewrite (is_connected_returns _ _ _ H). cbn [negb].
  unfold try_except at 1, bind at 1.
  destruct (outcome_of (_create_typed_value_try G L v dt self)) as [t|e] eqn:Ht.
  - rewrite (create_typed_value_returns _ _ _ _ _ _ Ht).
    assert (Hpb : exists pb, plcnext_pb2 G = Some pb).
    { revert Ht. unfold _create_typed_value_try, outcome_of, bind, global, raise.
      destruct (plcnext_pb2 G) as [pb|]; [eauto | discriminate]. }
    destruct Hpb as [pb Hpb].
    cbv [bind global stub_Write stub_attr get_self emit lift ret raise logger].
    rewrite Hpb. simpl.
    destruct (stub self) as [s|]; [|reflexivity]. simpl.
    destruct (Write s _) as [[]|e]; reflexivity.
  - rewrite (create_typed_value_reraises _ _ _ _ _ _ Ht). reflexivity.
Qed.

Lemma create_typed_value_outcome (G : Globals) (L : Lib) (v : pyval)
    (dt : string) (self : GrpcClient) :
  outcome_of (_create_typed_value G L v dt self) =
  outcome_of (_create_typed_value_try G L v dt self).
Proof.
  destruct (outcome_of (_create_typed_value_try G L v dt self)) as [t|e] eqn:H.
  - rewrite (create_typed_value_returns _ _ _ _ _ _ H). reflexivity.
  - rewrite (create_typed_value_reraises _ _ _ _ _ _ H). reflexivity.
Qed.

(** ** Encoding: the choice of the wire member *)

(** C6. With the declared type [AUTO], or any declared type that is not
    one of the known ones after [upper], the member is chosen by the
    kind of the value: a [bool] goes to [boolValue], else an [int] to
    [int32Value] (the message refusing what the member does not accept),
    else a [float] to [doubleValue], else the text [str(value)] to
    [stringValue]. A [bool] therefore never yields an integer member. *)
Theorem auto_detect_by_value_kind (G : Globals) (L : Lib) (pb : Pb2)
    (self : GrpcClient) (v : pyval) (dt : string) :
  plcnext_pb2 G = Some pb ->
  dt = "AUTO" \/ (ascii_text dt = true /\ in_ (upper dt) declared_types = false) ->
  outcome_of (_create_typed_value G L v dt self) =
    match v with
    | PyBool b => Return (boolValue b)
    | PyInt z =>
        if accepts pb m_int32 z then Return (int32Value z)
        else Raise (Exn ValueError ("Value out of range: " +:+ pretty z))
    | PyFloat f => Return (doubleValue f)
    | PyNone | PyStr _ => Return (stringValue (py_str L v))
    end /\
  (forall b t, v = PyBool b ->
     outcome_of (_create_typed_value G L v dt self) = Return t ->
     t = boolValue b /\ is_integer_wire t = false).
Proof.
  intros Hpb Hdt.
  assert (Hun : in_ (upper dt) declared_types = false).
  { destruct Hdt as [-> | [_ Hun]]; [reflexivity | exact Hun]. }
  clear Hdt.
  assert (Hrun : outcome_of (_create_typed_value G L v dt self) =
    match v with
    | PyBool b => Return (boolValue b)
    | PyInt z =>
        if accepts pb m_int32 z then Return (int32Value z)
        else Raise (Exn ValueError ("Value out of range: " +:+ pretty z))
    | PyFloat f => Return (doubleValue f)
    | PyNone | PyStr _ => Return (stringValue (py_str L v))
    end).
  { rewrite create_typed_value_outcome.
    unfold _create_typed_value_try, outcome_of, bind, global. rewrite Hpb.
    cbv [ret]. cbn [fst snd].
    set (u := upper dt) in *. clearbody u.
    cbv [in_ declared_types] in Hun. cbn [existsb] in Hun.
    repeat (apply orb_false_iff in Hun; destruct Hun as [? Hun]).
    cbv [in_]. cbn [existsb].
    repeat match goal with
           | E : String.eqb u _ = false |- _ => rewrite E; clear E
           end.
    cbn [orb].
    destruct v as [|b|z|f|s]; cbv [assign_int ret raise]; cbn [fst snd];
      try reflexivity.
    destruct (accepts pb m_int32 z); reflexivity. }
  split; [exact Hrun|].
  intros b t -> Ht. rewrite Hrun in Ht. injection Ht as <-. split; reflexivity.
Qed.

Lemma auto_detect_by_value_kind_witness :
  outcome_of (_create_typed_value live_globals sample_lib (PyBool true) "AUTO"
                live_client) = Return (boolValue true) /\
  outcome_of (_create_typed_value live_globals sample_lib (PyInt 7) "lint"
                live_client) = Return (int32Value 7).
Proof.
  split.
  - exact (proj1 (auto_detect_by_value_kind live_globals sample_lib sample_pb2
                    live_client (PyBool true) "AUTO" eq_refl (or_introl eq_refl))).
  - exact (proj1 (auto_detect_by_value_kind live_globals sample_lib sample_pb2
                    live_client (PyInt 7) "lint" eq_refl
                    (or_intror (conj eq_refl eq_refl)))).
Defined.

(** ** Encoding failures and the write *)

(** C7. In live mode, an exception raised while the value is coerced is
    logged and raised again by [_create_typed_value], and
    [write_single] then returns [False]: it does not raise, sends
    nothing and logs the cause. The text [abc] with the declared type
    [DINT] is such a case. *)
Theorem encoding_failure_fails_write (G : Globals) (L : Lib) (self : GrpcClient)
    (n : string) :
  outcome_of (is_connected G self) = Return true ->
  (forall v dt e,
     outcome_of (_create_typed_value_try G L v dt self) = Raise e ->
     _create_typed_value G L v dt self = (Raise e, self, [conversion_error e]) /\
     write_single G L n v dt self =
       (Return false, self, [conversion_error e; write_error L n v e])) /\
  (forall pb, plcnext_pb2 G = Some pb ->
     outcome_of (_create_typed_value G L (PyStr "abc") "DINT" self) =
       Raise (Exn ValueError "invalid literal for int() with base 10: 'abc'")) /\
  outcome_of (write_single G L n (PyStr "abc") "DINT" self) = Return false.
Proof.
  intros Hlive. split; [|split].
  - intros v dt e He. split.
    + apply create_typed_value_reraises. exact He.
    + rewrite (write_single_live _ _ _ _ _ _ Hlive), He. reflexivity.
  - intros pb Hpb. rewrite create_typed_value_outcome.
    unfold _create_typed_value_try, outcome_of, bind, global. rewrite Hpb.
    reflexivity.
  - rewrite (write_single_live _ _ _ _ _ _ Hlive).
    unfold _create_typed_value_try, outcome_of, bind, global.
    destruct (plcnext_pb2 G) as [pb|]; reflexivity.
Qed.

Lemma encoding_failure_fails_write_witness :
  outcome_of (is_connected live_globals live_client) = Return true /\
  write_single live_globals sample_lib "X.Y" (PyStr "abc") "DINT" live_client =
    (Return false, live_client,
     [ Log ERROR "Type conversion error: invalid literal for int() with base 10: 'abc'";
       Log ERROR "Write error for X.Y=abc: invalid literal for int() with base 10: 'abc'" ]).
Proof.
  split; [reflexivity|].
  exact (proj2 (proj1 (encoding_failure_fails_write live_globals sample_lib
                         live_client "X.Y" eq_refl)
                  (PyStr "abc") "DINT"
                  (Exn ValueError "invalid literal for int() with base 10: 'abc'")
                  eq_refl)).
Defined.

(** ** Batched reads in live mode *)

(** C8. In live mode [read_multiple] returns one result per item of the
    reply, in the reply's order and under the name each item reports, so
    a reply that leaves requested names out gives fewer results than
    names were requested; when the call raises, it returns one failed
    result per requested name, all with the text of the exception. *)
Theorem live_read_multiple_follows_reply (G : Globals) (pb : Pb2) (s : Stub)
    (self : GrpcClient) (names : list string) :
  outcome_of (is_connected G self) = Return true ->
  plcnext_pb2 G = Some pb ->
  stub self = Some s ->
  (forall items, Read s names = Return items ->
     exists results,
       outcome_of (read_multiple G names self) = Return results /\
       results = map (fun it => [ ("port_name", PyStr (portName it));
                                  ("value", decode_value (value it));
                                  ("success", PyBool true);
                                  ("simulated", PyBool false) ]) items /\
       length results = length items /\
       ((length items < length names)%nat ->
        (length results < length names)%nat)) /\
  (forall e, Read s names = Raise e ->
     outcome_of (read_multiple G names self) =
       Return (map (fun n => [ ("port_name", PyStr n); ("value", PyNone);
                               ("success", PyBool false);
                               ("error", PyStr (exn_text e)) ]) names)).
Proof.
  intros Hlive Hpb Hstub. split.
  - intros items Hitems. eexists. split; [|split; [reflexivity|]].
    + rewrite (read_multiple_live _ _ _ Hlive), Hpb, Hstub, Hitems. reflexivity.
    + rewrite length_map. split; [reflexivity | intros Hlt; exact Hlt].
  - intros e He.
    rewrite (read_multiple_live _ _ _ Hlive), Hpb, Hstub, He. reflexivity.
Qed.

Lemma live_read_multiple_follows_reply_witness :
  outcome_of (read_multiple live_globals ["A"; "X.Y"; "B"] live_client) =
    Return [ [ ("port_name", PyStr "X.Y"); ("value", PyInt 42);
               ("success", PyBool true); ("simulated", PyBool false) ] ] /\
  outcome_of (read_multiple live_globals ["A"; "X.Y"] broken_client) =
    Return [ [ ("port_name", PyStr "A"); ("value", PyNone);
               ("success", PyBool false); ("error", PyStr "Deadline Exceeded") ];
             [ ("port_name", PyStr "X.Y"); ("value", PyNone);
               ("success", PyBool false); ("error", PyStr "Deadline Exceeded") ] ].
Proof.
  split.
  - destruct (proj1 (live_read_multiple_follows_reply live_globals sample_pb2
                       sample_stub live_client ["A"; "X.Y"; "B"]
                       eq_refl eq_refl eq_refl)
                _ eq_refl) as (results & Hrun & Hres & _).
    rewrite Hrun, Hres. reflexivity.
  - exact (proj2 (live_read_multiple_follows_reply live_globals sample_pb2
                    failing_stub broken_client ["A"; "X.Y"]
                    eq_refl eq_refl eq_refl)
             (Exn RpcError "Deadline Exceeded") eq_refl).
Defined.

(** ** Decoding floats *)

Lemma div_half_even_nearest (a b : Z) :
  0 < b -> 2 * Z.abs (div_half_even a b * b - a) <= b.
Proof.
  intros Hb. unfold div_half_even.
  pose proof (Z.div_mod a b ltac:(lia)) as Hdiv.
  pose proof (Z.mod_pos_bound a b Hb) as Hmod.
  destruct (Z.compare_spec (2 * (a mod b)) b) as [Heq|Hlt|Hgt];
    [destruct (Z.even (a / b))| |]; nia.
Qed.

Lemma div_half_even_nonneg (a b : Z) :
  0 <= a -> 0 < b -> 0 <= div_half_even a b.
Proof.
  intros Ha Hb. unfold div_half_even.
  pose proof (Z.div_pos a b Ha Hb) as Hq.
  destruct (2 * (a mod b) ?= b); [destruct (Z.even (a / b))| |]; lia.
Qed.

(** [scaled6] is [x * 10^6] for an integral [x], and otherwise an
    integer at most one half away from [x * 10^6]. *)
Lemma scaled6_nearest (m : positive) (e : Z) :
  0 <= scaled6 m e /\
  (0 <= e -> scaled6 m e = Zpos m * 2 ^ e * 10 ^ 6) /\
  (e < 0 ->
   2 * Z.abs (scaled6 m e * 2 ^ (- e) - Zpos m * 10 ^ 6) <= 2 ^ (- e)).
Proof.
  destruct e as [|k|k]; unfold scaled6.
  - repeat split; lia.
  - repeat split; [|lia].
    pose proof (Z.pow_pos_nonneg 2 (Zpos k) ltac:(lia) ltac:(lia)). nia.
  - assert (Hpow : 0 < 2 ^ Zpos k) by (apply Z.pow_pos_nonneg; lia).
    repeat split.
    + apply div_half_even_nonneg; [lia | exact Hpow].
    + lia.
    + intros _. change (- Zneg k) with (Zpos k).
      apply div_half_even_nearest. exact Hpow.
Qed.

(** C9. A single- or double-precision wire value decodes to the float
    rounded to six decimals: the nearest double to [N / 10^6], where [N]
    is the integer nearest to [x * 10^6] (at most one half away, exact
    for an integral [x]). The double written [1.0000005] lies just above
    that decimal, and decodes to the double written [1.000001], one of
    the two values the rounding allows. *)
Theorem decode_float_rounds_six_decimals :
  (forall name f self,
     outcome_of (_extract_value {| portName := name; value := doubleValue f |} self)
       = Return (PyFloat (py_round6 f)) /\
     outcome_of (_extract_value {| portName := name; value := floatValue f |} self)
       = Return (PyFloat (py_round6 f))) /\
  (forall s m e,
     0 <= scaled6 m e /\
     (0 <= e -> scaled6 m e = Zpos m * 2 ^ e * 10 ^ 6) /\
     (e < 0 ->
      2 * Z.abs (scaled6 m e * 2 ^ (- e) - Zpos m * 10 ^ 6) <= 2 ^ (- e)) /\
     py_round6 (S754_finite s m e) =
       match scaled6 m e with
       | Zpos n => nearest_double s n (10 ^ 6)
       | _ => S754_zero s
       end) /\
  (let wire := nearest_double false 10000005 (10 ^ 7) in
   let one := nearest_double false 1 1 in
   let next := nearest_double false 1000001 (10 ^ 6) in
   wire = S754_finite false 4503601879170310 (-52) /\
   2 * Z.abs (4503601879170310 * 10 ^ 7 - 10000005 * 2 ^ 52) <= 10 ^ 7 /\
   10000005 * 2 ^ 52 < 4503601879170310 * 10 ^ 7 /\
   next = S754_finite false 4503604130970123 (-52) /\
   2 * Z.abs (4503604130970123 * 10 ^ 6 - 1000001 * 2 ^ 52) <= 10 ^ 6 /\
   one = S754_finite false 4503599627370496 (-52) /\
   decode_value (doubleValue wire) = PyFloat next /\
   (decode_value (doubleValue wire) = PyFloat one \/
    decode_value (doubleValue wire) = PyFloat next)).
Proof.
  split; [|split].
  - intros name f self. split; reflexivity.
  - intros s m e. destruct (scaled6_nearest m e) as (H0 & Hint & Hfrac).
    repeat split; assumption.
  - cbv zeta.
    assert (Hdec : decode_value (doubleValue (nearest_double false 10000005 (10 ^ 7)))
                   = PyFloat (nearest_double false 1000001 (10 ^ 6))).
    { vm_compute. reflexivity. }
    repeat split; try (vm_compute; reflexivity); try exact Hdec.
    + vm_compute. discriminate.
    + vm_compute. discriminate.
    + right. exact Hdec.
Qed.

(** ** The shape of the results *)

(** C2, as stated, fails: a live read whose reply is empty returns a
    record without the [simulated] field, while a simulated read returns
    one with it. *)
Lemma read_single_shape_counterexample : ~ uniform_read_shape.
Proof.
  intros H.
  destruct (H live_globals sim_globals live_client sim_client "X.Z" "X.Z"
              [ ("port_name", PyStr "X.Z"); ("value", PyNone);
                ("success", PyBool false) ]
              (sim_result "X.Z" (sim_lookup sim_client "X.Z"))
              eq_refl eq_refl) as [_ Hsim].
  apply Hsim. reflexivity.
Qed.

Lemma read_single_try_run (G : Globals) (self : GrpcClient) (n : string) :
  read_single_try G n self =
  match plcnext_pb2 G with
  | None => (Raise (name_error "plcnext_pb2"), self, [])
  | Some _ =>
      match stub self with
      | None => (Raise (no_stub "Read"), self, [])
      | Some s =>
          match Read s [n] with
          | Return (item :: _) =>
              (Return (live_result n (decode_value (value item))), self, [RpcRead [n]])
          | Return [] => (Return (empty_result n), self, [RpcRead [n]])
          | Raise e => (Raise e, self, [RpcRead [n]])
          end
      end
  end.
Proof.
  cbv [read_single_try bind global stub_Read stub_attr get_self emit lift ret raise].
  destruct (plcnext_pb2 G); [|reflexivity]. simpl.
  destruct (stub self) as [s|]; [|reflexivity]. simpl.
  destruct (Read s [n]) as [[|item rest]|e]; reflexivity.
Qed.

Lemma read_single_under_try (G : Globals) (n : string) :
  read_single G n =
  (live <- is_connected G ;;
   if negb live then
     self <- get_self ;;
     ret [ ("port_name", PyStr n); ("value", sim_lookup self n);
           ("success", PyBool true); ("simulated", PyBool true) ]
   else
     try_except (read_single_try G n)
       (fun e =>
          logger ERROR ("Read error for " +:+ n +:+ ": " +:+ exn_text e) ;;
          ret [ ("port_name", PyStr n); ("value", PyNone);
                ("success", PyBool false); ("error", PyStr (exn_text e)) ]))%py.
Proof. reflexivity. Qed.

(** C2, amended. Once [is_connected] has returned, [read_single] returns
    a record and [write_single] a bare boolean, in both modes and on
    every path. A simulated read returns [port_name], [value], [success]
    true and [simulated] true. A live read returns what the block under
    [try] returned: a successful record with [simulated] false, or, for
    an empty reply, [port_name], [value] ([None]) and [success] ([False])
    with no [simulated] field. When the block raised, the exception is
    caught and logged, and the record has [port_name], [value] ([None]),
    [success] ([False]) and [error], the text of that very exception,
    and no [simulated] field. The block raises NameError when the
    message module is not bound, AttributeError when the object has no
    stub, and otherwise exactly when the [Read] call raises, with the
    exception of the call. *)
Theorem read_write_result_shapes (G : Globals) (L : Lib) (self : GrpcClient)
    (n : string) (live : bool) :
  outcome_of (is_connected G self) = Return live ->
  (live = false ->
   outcome_of (read_single G n self)
     = Return [ ("port_name", PyStr n); ("value", sim_lookup self n);
                ("success", PyBool true); ("simulated", PyBool true) ]) /\
  (live = true ->
   (forall d, outcome_of (read_single_try G n self) = Return d ->
      outcome_of (read_single G n self) = Return d /\
      ((exists v, d = [ ("port_name", PyStr n); ("value", v);
                        ("success", PyBool true); ("simulated", PyBool false) ]) \/
       d = [ ("port_name", PyStr n); ("value", PyNone);
             ("success", PyBool false) ])) /\
   (forall e, outcome_of (read_single_try G n self) = Raise e ->
      outcome_of (read_single G n self)
        = Return [ ("port_name", PyStr n); ("value", PyNone);
                   ("success", PyBool false); ("error", PyStr (exn_text e)) ] /\
      In (Log ERROR ("Read error for " +:+ n +:+ ": " +:+ exn_text e))
         (trace_of (read_single G n self))) /\
   (plcnext_pb2 G = None ->
      outcome_of (read_single_try G n self) = Raise (name_error "plcnext_pb2")) /\
   (plcnext_pb2 G <> None -> stub self = None ->
      outcome_of (read_single_try G n self) = Raise (no_stub "Read")) /\
   (forall s, plcnext_pb2 G <> None -> stub self = Some s ->
      outcome_of (read_single_try G n self)
        = match Read s [n] with
          | Raise e => Raise e
          | Return [] =>
              Return [ ("port_name", PyStr n); ("value", PyNone);
                       ("success", PyBool false) ]
          | Return (item :: _) =>
              Return [ ("port_name", PyStr n);
                       ("value", decode_value (value item));
                       ("success", PyBool true); ("simulated", PyBool false) ]
          end)) /\
  (forall v dt, exists b : bool,
     outcome_of (write_single G L n v dt self) = Return b).
Proof.
  intros H. split; [|split].
  - intros ->. rewrite (read_single_sim _ _ _ H). reflexivity.
  - intros ->. rewrite (read_single_live _ _ _ H), read_single_try_run.
    split; [|split; [|split; [|split]]].
    + intros d. destruct (plcnext_pb2 G); [|discriminate].
      destruct (stub self) as [s|]; [|discriminate].
      destruct (Read s [n]) as [[|item rest]|e]; [| |discriminate].
      * intros E. injection E as <-. split; [reflexivity|]. right. reflexivity.
      * intros E. injection E as <-. split; [reflexivity|]. left.
        eexists. reflexivity.
    + intros e. destruct (plcnext_pb2 G).
      * destruct (stub self) as [s|].
        -- destruct (Read s [n]) as [[|item rest]|e']; try discriminate.
           intros E. injection E as ->. split; [reflexivity|].
           right. left. reflexivity.
        -- intros E. injection E as <-. split; [reflexivity|]. left. reflexivity.
      * intros E. injection E as <-. split; [reflexivity|]. left. reflexivity.
    + intros ->. reflexivity.
    + intros Hpb ->. destruct (plcnext_pb2 G); [reflexivity | congruence].
    + intros s Hpb ->. destruct (plcnext_pb2 G); [|congruence].
      destruct (Read s [n]) as [[|item rest]|e]; reflexivity.
  - intros v dt. destruct live.
    + rewrite (write_single_live _ _ _ _ _ _ H).
      destruct (outcome_of (_create_typed_value_try G L v dt self)); [|eauto].
      cbv zeta. destruct (stub self) as [s|]; [|eauto].
      destruct (Write s _); eauto.
    + rewrite (write_single_sim _ _ _ _ _ _ H). eauto.
Qed.

Lemma read_write_result_shapes_witness :
  outcome_of (is_connected live_globals broken_client) = Return true /\
  outcome_of (read_single_try live_globals "X.Y" broken_client)
    = Raise (Exn RpcError "Deadline Exceeded") /\
  outcome_of (read_single live_globals "X.Y" broken_client)
    = Return [ ("port_name", PyStr "X.Y"); ("value", PyNone);
               ("success", PyBool false);
               ("error", PyStr "Deadline Exceeded") ].
Proof.
  split; [reflexivity|]. split; [reflexivity|].
  apply (proj1 (proj2 (proj1 (proj2 (read_write_result_shapes
           live_globals sample_lib broken_client "X.Y" true eq_refl)) eq_refl))
           (Exn RpcError "Deadline Exceeded") eq_refl).
Defined.

(** ** Construction *)

(** C1 fails on the module as it stands: [__init__] reads the global
    [GRPC_AVAILABLE] before its [try], the module never binds that name,
    and so the constructor raises NameError for every address. *)
Theorem init_raises_name_error (L : Lib) (addr : string) :
  new_GrpcClient source_globals L addr =
    (Raise (Exn NameError "name 'GRPC_AVAILABLE' is not defined"), []).
Proof. reflexivity. Qed.

(** [_connect] touches the channel, the stub and the flag only. *)
Lemma connect_keeps_store (G : Globals) (L : Lib) (self : GrpcClient) :
  address (self_of (_connect G L self)) = address self /\
  _sim_data (self_of (_connect G L self)) = _sim_data self.
Proof.
  unfold _connect, self_of.
  cbv [bind get_self lift update_self global logger emit ret raise].
  destruct (String.prefix "unix://" (address self));
    [destruct (local_channel_credentials L) as [[]|e]; [|split; reflexivity]|];
    cbn [fst snd];
    match goal with
    | |- context [secure_channel L ?a] => destruct (secure_channel L a) as [c|e]
    | |- context [insecure_channel L ?a] => destruct (insecure_channel L a) as [c|e]
    end; try (split; reflexivity); cbn [fst snd];
    (destruct (plcnext_pb2_grpc G) as [mk|]; [|split; reflexivity]);
    cbn [fst snd]; destruct (mk c) as [s|e]; split; reflexivity.
Qed.

(** With the name [GRPC_AVAILABLE] bound, the constructor returns for
    every address. With the flag false the object is in simulation; with
    the flag true an exception of [_connect] is swallowed: it is logged
    as an error and the object is left in simulation. *)
Theorem init_returns_when_flag_bound (G : Globals) (L : Lib) (addr : string)
    (flag : bool) :
  GRPC_AVAILABLE G = Some flag ->
  let fresh := {| address := addr; channel := None; stub := None;
                  _connected := false; _sim_data := _init_sim_data |} in
  exists self t,
    new_GrpcClient G L addr = (Return self, t) /\
    address self = addr /\
    _sim_data self = _init_sim_data /\
    (flag = false ->
     _connected self = false /\
     t = [Log INFO "Running in simulation mode (no gRPC)"]) /\
    (forall e, flag = true ->
       outcome_of (_connect G L fresh) = Raise e ->
       _connected self = false /\
       outcome_of (is_connected G self) = Return false /\
       t = trace_of (_connect G L fresh)
           ++ [Log ERROR ("gRPC connection failed: " +:+ exn_text e
                          +:+ ". Switching to simulation mode.")]).
Proof.
  intros Hflag fresh.
  pose proof (connect_keeps_store G L fresh) as [Haddr Hstore].
  unfold new_GrpcClient, __init__. fold fresh.
  cbv [bind global]. rewrite Hflag. cbv [ret]. cbn [fst snd app].
  destruct flag.
  - unfold try_except.
    destruct (_connect G L fresh) as [[[[]|e] self1] t1] eqn:Hrun;
      unfold self_of in Haddr, Hstore; cbn [fst snd] in Haddr, Hstore.
    + exists self1, t1. repeat split; try assumption; discriminate.
    + exists (set_connected false self1),
             (t1 ++ [Log ERROR ("gRPC connection failed: " +:+ exn_text e
                                +:+ ". Switching to simulation mode.")]).
      cbv [bind logger emit update_self]. cbn [fst snd app].
      repeat split; try assumption; try discriminate.
      match goal with
      | He : outcome_of _ = Raise _ |- _ =>
          unfold outcome_of in He; cbn [fst snd] in He; injection He as ->
      end.
      reflexivity.
  - exists fresh, [Log INFO "Running in simulation mode (no gRPC)"].
    repeat split; discriminate.
Qed.

Lemma init_returns_when_flag_bound_witness :
  exists self t,
    new_GrpcClient sim_globals sample_lib "localhost:50051" = (Return self, t) /\
    _connected self = false.
Proof.
  destruct (init_returns_when_flag_bound sim_globals sample_lib "localhost:50051"
              false eq_refl) as (self & t & Hrun & _ & _ & Hsim & _).
  exists self, t. split; [exact Hrun | apply Hsim; reflexivity].
Defined.

(** No method changes [_connected]: the mode the constructor left is
    the mode of the object for the rest of its life. *)
Theorem methods_keep_connected (G : Globals) (L : Lib) (self : GrpcClient) :
  (forall n, _connected (self_of (read_single G n self)) = _connected self) /\
  (forall ns, _connected (self_of (read_multiple G ns self)) = _connected self) /\
  (forall n v dt,
     _connected (self_of (write_single G L n v dt self)) = _connected self) /\
  (forall n v, _connected (self_of (update_sim n v self)) = _connected self) /\
  _connected (self_of (get_sim_data self)) = _connected self /\
  _connected (self_of (discover_axes self)) = _connected self.
Proof.
  assert (Hcases : (exists b, outcome_of (is_connected G self) = Return b) \/
                   is_connected G self
                     = (Raise (name_error "GRPC_AVAILABLE"), self, [])).
  { rewrite is_connected_run.
    destruct (_connected self); [destruct (GRPC_AVAILABLE G)|]; eauto. }
  repeat split; try reflexivity.
  - intros n. destruct Hcases as [[[] H]|H].
    + rewrite (read_single_live _ _ _ H).
      destruct (plcnext_pb2 G); [|reflexivity].
      destruct (stub self) as [s|]; [|reflexivity].
      destruct (Read s [n]) as [[|item rest]|e]; reflexivity.
    + rewrite (read_single_sim _ _ _ H). reflexivity.
    + unfold read_single, bind. rewrite H. reflexivity.
  - intros ns. destruct Hcases as [[[] H]|H].
    + rewrite (read_multiple_live _ _ _ H).
      destruct (plcnext_pb2 G); [|reflexivity].
      destruct (stub self) as [s|]; [|reflexivity].
      destruct (Read s ns); reflexivity.
    + rewrite (read_multiple_sim _ _ _ H). reflexivity.
    + unfold read_multiple, bind. rewrite H. reflexivity.
  - intros n v dt. destruct Hcases as [[[] H]|H].
    + rewrite (write_single_live _ _ _ _ _ _ H).
      destruct (outcome_of (_create_typed_value_try G L v dt self)); [|reflexivity].
      cbv zeta. destruct (stub self) as [s|]; [|reflexivity].
      destruct (Write s _); reflexivity.
    + rewrite (write_single_sim _ _ _ _ _ _ H). reflexivity.
    + unfold write_single, bind. rewrite H. reflexivity.
Qed.

(** ** Batched reads in simulation *)

(** In simulation [read_multiple] answers every requested name, in the
    order requested, with the record [read_single] returns for it; the
    empty request gives the empty list. *)
Theorem sim_read_multiple_pointwise (G : Globals) (self : GrpcClient)
    (names : list string) :
  outcome_of (is_connected G self) = Return false ->
  exists results,
    outcome_of (read_multiple G names self) = Return results /\
    length results = length names /\
    map Return results = map (fun n => outcome_of (read_single G n self)) names.
Proof.
  intros H. rewrite (read_multiple_sim _ _ _ H). eexists.
  split; [reflexivity|]. split; [apply length_map|].
  rewrite map_map. apply map_ext. intros n.
  rewrite (read_single_sim _ _ _ H). reflexivity.
Qed.

Lemma sim_read_multiple_pointwise_witness :
  exists results,
    outcome_of (read_multiple sim_globals [] sim_client) = Return results /\
    length results = 0%nat.
Proof.
  destruct (sim_read_multiple_pointwise sim_globals sim_client [] eq_refl)
    as (results & Hrun & Hlen & _).
  exists results. split; [exact Hrun | exact Hlen].
Defined.

(** ** Live mode: what the operations leave alone *)

(** In live mode the three operations leave the object as it is, the
    simulated store included: a live write is not mirrored into the
    store. A read makes at most one [Read] call and no [Write] call, a
    write at most one [Write] call, of a single item under the name
    given, and no [Read] call. *)
Theorem live_operations_frame (G : Globals) (L : Lib) (self : GrpcClient) :
  outcome_of (is_connected G self) = Return true ->
  (forall n,
     self_of (read_single G n self) = self /\
     (rpc_calls (trace_of (read_single G n self)) = [] \/
      rpc_calls (trace_of (read_single G n self)) = [RpcRead [n]])) /\
  (forall ns,
     self_of (read_multiple G ns self) = self /\
     (rpc_calls (trace_of (read_multiple G ns self)) = [] \/
      rpc_calls (trace_of (read_multiple G ns self)) = [RpcRead ns])) /\
  (forall n v dt,
     self_of (write_single G L n v dt self) = self /\
     (rpc_calls (trace_of (write_single G L n v dt self)) = [] \/
      exists t,
        rpc_calls (trace_of (write_single G L n v dt self))
          = [RpcWrite [ {| portName := n; value := t |} ]])).
Proof.
  intros H. split; [|split].
  - intros n. rewrite (read_single_live _ _ _ H).
    destruct (plcnext_pb2 G); [|split; [reflexivity | left; reflexivity]].
    destruct (stub self) as [s|]; [|split; [reflexivity | left; reflexivity]].
    destruct (Read s [n]) as [[|item rest]|e];
      (split; [reflexivity | right; reflexivity]).
  - intros ns. rewrite (read_multiple_live _ _ _ H).
    destruct (plcnext_pb2 G); [|split; [reflexivity | left; reflexivity]].
    destruct (stub self) as [s|]; [|split; [reflexivity | left; reflexivity]].
    destruct (Read s ns) as [items|e];
      (split; [reflexivity | right; reflexivity]).
  - intros n v dt. rewrite (write_single_live _ _ _ _ _ _ H).
    destruct (outcome_of (_create_typed_value_try G L v dt self)) as [t|e];
      [|split; [reflexivity | left; reflexivity]].
    cbv zeta. destruct (stub self) as [s|];
      [|split; [reflexivity | left; reflexivity]].
    destruct (Write s _) as [[]|e];
      (split; [reflexivity | right; exists t; reflexivity]).
Qed.

Lemma live_operations_frame_witness :
  self_of (write_single live_globals sample_lib "X.Y" (PyInt 7) "DINT" live_client)
    = live_client /\
  rpc_calls (trace_of (read_single live_globals "X.Y" live_client))
    = [RpcRead ["X.Y"]].
Proof.
  destruct (live_operations_frame live_globals sample_lib live_client eq_refl)
    as (Hread & _ & Hwrite).
  split.
  - exact (proj1 (Hwrite "X.Y" (PyInt 7) "DINT")).
  - destruct (proj2 (Hread "X.Y")) as [Hnone|Hone]; [discriminate Hnone | exact Hone].
Defined.

(** A live write returns [True] exactly when the value was encoded, the
    object has a stub, and the [Write] call for the one item returned;
    in every other case it returns [False]. *)
Theorem live_write_true_iff (G : Globals) (L : Lib) (self : GrpcClient)
    (n : string) (v : pyval) (dt : string) :
  outcome_of (is_connected G self) = Return true ->
  (outcome_of (write_single G L n v dt self) = Return true <->
   exists t s,
     outcome_of (_create_typed_value G L v dt self) = Return t /\
     stub self = Some s /\
     Write s [ {| portName := n; value := t |} ] = Return tt) /\
  (outcome_of (write_single G L n v dt self) = Return true \/
   outcome_of (write_single G L n v dt self) = Return false).
Proof.
  intros H. rewrite (write_single_live _ _ _ _ _ _ H), create_typed_value_outcome.
  destruct (outcome_of (_create_typed_value_try G L v dt self)) as [t|e].
  - cbv zeta. destruct (stub self) as [s|].
    + destruct (Write s _) as [[]|e] eqn:Hw.
      * split; [|left; reflexivity]. split; [|reflexivity].
        intros _. exists t, s. repeat split. exact Hw.
      * split; [|right; reflexivity]. split; [discriminate|].
        intros (t' & s' & Ht & Hs & Hw').
        injection Ht as <-. injection Hs as <-. rewrite Hw in Hw'. discriminate.
    + split; [|right; reflexivity]. split; [discriminate|].
      intros (t' & s' & _ & Hs & _). discriminate.
  - split; [|right; reflexivity]. split; [discriminate|].
    intros (t' & s' & Ht & _). discriminate.
Qed.

Lemma live_write_true_iff_witness :
  outcome_of (write_single live_globals sample_lib "X.Y" (PyInt 7) "DINT" live_client)
    = Return true /\
  outcome_of (write_single live_globals sample_lib "X.Y" (PyInt 7) "DINT" broken_client)
    = Return false.
Proof.
  split.
  - apply (proj1 (live_write_true_iff live_globals sample_lib live_client "X.Y"
                    (PyInt 7) "DINT" eq_refl)).
    exists (int32Value 7), sample_stub. repeat split.
  - destruct (proj2 (live_write_true_iff live_globals sample_lib broken_client "X.Y"
                       (PyInt 7) "DINT" eq_refl)) as [Ht|Hf];
      [discriminate Ht | exact Hf].
Defined.

(** ** Encoding and decoding together *)

Lemma upper_char_idempotent (c : ascii) : upper_char (upper_char c) = upper_char c.
Proof. destruct c as [[] [] [] [] [] [] [] []]; vm_compute; reflexivity. Qed.

Lemma upper_idempotent (s : string) : upper (upper s) = upper s.
Proof.
  induction s as [|c r IH]; [reflexivity|].
  simpl. rewrite upper_char_idempotent, IH. reflexivity.
Qed.

(** The declared type is read without regard to case: a declared type
    and its upper-case form give the same outcome, object and log, and
    so do any two declared types that differ in case only. *)
Theorem declared_type_ignores_case (G : Globals) (L : Lib) (self : GrpcClient)
    (v : pyval) (dt dt' : string) :
  ascii_text dt = true ->
  ascii_text dt' = true ->
  upper dt = upper dt' ->
  _create_typed_value G L v dt self = _create_typed_value G L v (upper dt) self /\
  _create_typed_value G L v dt self = _create_typed_value G L v dt' self.
Proof.
  intros _ _ Hsame.
  assert (Hup : forall d, _create_typed_value G L v d self
                          = _create_typed_value G L v (upper d) self).
  { intros d. unfold _create_typed_value, _create_typed_value_try.
    rewrite upper_idempotent. reflexivity. }
  split; [apply Hup|]. rewrite (Hup dt), (Hup dt'), Hsame. reflexivity.
Qed.

Lemma declared_type_ignores_case_witness :
  _create_typed_value live_globals sample_lib (PyInt 7) "dint" live_client
    = _create_typed_value live_globals sample_lib (PyInt 7) "DInt" live_client.
Proof.
  exact (proj2 (declared_type_ignores_case live_globals sample_lib live_client
                  (PyInt 7) "dint" "DInt" eq_refl eq_refl eq_refl)).
Defined.

(** What a value becomes when it is encoded under [AUTO] or a declared
    type of its own kind and the wire value is decoded again: a [bool],
    an [int] and a text come back as they were, a [float] sent as a
    double comes back rounded to six decimals. [None] has no member: under
    [AUTO] it is sent as the text [None] and comes back as that text. *)
Theorem encode_decode_round_trip (G : Globals) (L : Lib) (pb : Pb2)
    (self : GrpcClient) (v : pyval) (dt : string) (t : TypedValue) :
  plcnext_pb2 G = Some pb ->
  outcome_of (_create_typed_value G L v dt self) = Return t ->
  (In (upper dt) (own_types v) ->
   decode_value t = match v with
                    | PyFloat f => PyFloat (py_round6 f)
                    | _ => v
                    end) /\
  (v = PyNone -> upper dt = "AUTO" -> decode_value t = PyStr "None").
Proof.
  intros Hpb. rewrite create_typed_value_outcome.
  unfold _create_typed_value_try, outcome_of, bind, global. rewrite Hpb.
  cbv [ret]. cbn [fst snd].
  set (u := upper dt). clearbody u. intros Hrun. split.
  - intros Hin. destruct v as [|b|z|f|s]; cbn [own_types In] in Hin;
      repeat (destruct Hin as [<-|Hin]); try contradiction;
      revert Hrun; cbv [in_]; cbn [existsb String.eqb Ascii.eqb Bool.eqb orb];
      cbv [lift assign_int ret raise py_int]; cbn [fst snd];
      try (destruct (accepts pb _ z)); cbn [fst snd int_member_value];
      intros Hrun; try discriminate Hrun; injection Hrun as <-; reflexivity.
  - intros -> ->. revert Hrun. cbn. intros Hrun. injection Hrun as <-. reflexivity.
Qed.

Lemma encode_decode_round_trip_witness :
  decode_value (int32Value (-5)) = PyInt (-5) /\
  decode_value (stringValue "None") = PyStr "None".
Proof.
  split.
  - exact (proj1 (encode_decode_round_trip live_globals sample_lib sample_pb2
                    live_client (PyInt (-5)) "dint" (int32Value (-5))
                    eq_refl eq_refl)
             (or_intror (or_intror (or_intror (or_introl eq_refl))))).
  - exact (proj2 (encode_decode_round_trip live_globals sample_lib sample_pb2
                    live_client PyNone "auto" (stringValue "None")
                    eq_refl eq_refl)
             eq_refl eq_refl).
Defined.

(** ** The simulated store under several writes *)

Lemma set_sim_data_twice (d d' : gmap string pyval) (self : GrpcClient) :
  set_sim_data d (set_sim_data d' self) = set_sim_data d self.
Proof. reflexivity. Qed.

(** In simulation the store is exactly the history of the writes: a
    second write to the same name replaces the first, writes to
    different names can be made in either order, and each written name
    reads back its last value. Any name is taken: a write to a name the
    store holds keeps the number of variables, a write to a new name adds
    one. *)
Theorem sim_writes_compose (G : Globals) (L : Lib) (self : GrpcClient)
    (n1 n2 : string) (v1 v2 : pyval) (dt1 dt2 : string) :
  outcome_of (is_connected G self) = Return false ->
  let w1 := self_of (write_single G L n1 v1 dt1 self) in
  let w12 := self_of (write_single G L n2 v2 dt2 w1) in
  let w2 := self_of (write_single G L n2 v2 dt2 self) in
  let w21 := self_of (write_single G L n1 v1 dt1 w2) in
  (n1 = n2 -> w12 = w2) /\
  (n1 <> n2 -> w12 = w21) /\
  outcome_of (read_single G n2 w12) = Return (sim_result n2 v2) /\
  (n1 <> n2 -> outcome_of (read_single G n1 w12) = Return (sim_result n1 v1)) /\
  (is_Some (_sim_data self !! n1) -> size (_sim_data w1) = size (_sim_data self)) /\
  (_sim_data self !! n1 = None -> size (_sim_data w1) = S (size (_sim_data self))).
Proof.
  intros H w1 w12 w2 w21.
  assert (H1 : outcome_of (is_connected G w1) = Return false).
  { subst w1. rewrite (write_single_sim _ _ _ _ _ _ H). unfold self_of. cbn [fst snd].
    rewrite is_connected_set_sim_data. exact H. }
  assert (H2 : outcome_of (is_connected G w2) = Return false).
  { subst w2. rewrite (write_single_sim _ _ _ _ _ _ H). unfold self_of. cbn [fst snd].
    rewrite is_connected_set_sim_data. exact H. }
  assert (E1 : w1 = set_sim_data (<[n1 := v1]> (_sim_data self)) self).
  { subst w1. rewrite (write_single_sim _ _ _ _ _ _ H). reflexivity. }
  assert (E2 : w2 = set_sim_data (<[n2 := v2]> (_sim_data self)) self).
  { subst w2. rewrite (write_single_sim _ _ _ _ _ _ H). reflexivity. }
  assert (E12 : w12 = set_sim_data (<[n2 := v2]> (<[n1 := v1]> (_sim_data self))) self).
  { subst w12. rewrite (write_single_sim _ _ _ _ _ _ H1), E1. reflexivity. }
  assert (E21 : w21 = set_sim_data (<[n1 := v1]> (<[n2 := v2]> (_sim_data self))) self).
  { subst w21. rewrite (write_single_sim _ _ _ _ _ _ H2), E2. reflexivity. }
  assert (H12 : outcome_of (is_connected G w12) = Return false).
  { rewrite E12, is_connected_set_sim_data. exact H. }
  repeat split.
  - intros ->. rewrite E12, E2, insert_insert_eq. reflexivity.
  - intros Hne. rewrite E12, E21, (insert_insert_ne _ n2 n1) by congruence.
    reflexivity.
  - rewrite (read_single_sim _ _ _ H12), E12. unfold sim_lookup. cbn [_sim_data set_sim_data].
    rewrite lookup_insert_eq. reflexivity.
  - intros Hne. rewrite (read_single_sim _ _ _ H12), E12. unfold sim_lookup.
    cbn [_sim_data set_sim_data].
    rewrite lookup_insert_ne by congruence. rewrite lookup_insert_eq. reflexivity.
  - intros Hx. rewrite E1. cbn [_sim_data set_sim_data].
    apply map_size_insert_Some. exact Hx.
  - intros Hn. rewrite E1. cbn [_sim_data set_sim_data].
    apply map_size_insert_None. exact Hn.
Qed.

Lemma sim_writes_compose_witness :
  outcome_of (read_single sim_globals "X.Y"
    (self_of (write_single sim_globals sample_lib "X.Y" (PyInt 2) "AUTO"
       (self_of (write_single sim_globals sample_lib "X.Y" (PyInt 1) "AUTO"
                   sim_client)))))
  = Return (sim_result "X.Y" (PyInt 2)).
Proof.
  exact (proj1 (proj2 (proj2 (sim_writes_compose sim_globals sample_lib sim_client
                                "X.Y" "X.Y" (PyInt 1) (PyInt 2) "AUTO" "AUTO"
                                eq_refl)))).
Defined.

(** [update_sim] stores the value in every mode, without logging or
    calling the remote end, and [get_sim_data] then shows it. In
    simulation it leaves the object as [write_single] would and the next
    [read_single] returns the value; in live mode the reads do not look
    at the store, and answer as before. *)
Theorem update_sim_effect (G : Globals) (L : Lib) (self : GrpcClient)
    (n : string) (v : pyval) :
  let after := self_of (update_sim n v self) in
  update_sim n v self
    = (Return tt, set_sim_data (<[n := v]> (_sim_data self)) self, []) /\
  (exists d, outcome_of (get_sim_data after) = Return d /\ d !! n = Some v /\
             forall k, k <> n -> d !! k = _sim_data self !! k) /\
  (outcome_of (is_connected G self) = Return false ->
   (forall dt, after = self_of (write_single G L n v dt self)) /\
   outcome_of (read_single G n after) = Return (sim_result n v)) /\
  (outcome_of (is_connected G self) = Return true ->
   forall k, outcome_of (read_single G k after) = outcome_of (read_single G k self)).
Proof.
  cbv zeta.
  assert (Eafter : self_of (update_sim n v self)
                   = set_sim_data (<[n := v]> (_sim_data self)) self)
    by reflexivity.
  rewrite Eafter. split; [reflexivity|]. split; [|split].
  - eexists. split; [reflexivity|]. split.
    + apply lookup_insert_eq.
    + intros k Hk. apply lookup_insert_ne. congruence.
  - intros H. split.
    + intros dt. rewrite (write_single_sim _ _ _ _ _ _ H). reflexivity.
    + rewrite read_single_sim.
      * unfold sim_lookup. cbn [_sim_data set_sim_data].
        rewrite lookup_insert_eq. reflexivity.
      * rewrite is_connected_set_sim_data. exact H.
  - intros H k.
    assert (H' : outcome_of (is_connected G
                   (set_sim_data (<[n := v]> (_sim_data self)) self)) = Return true).
    { rewrite is_connected_set_sim_data. exact H. }
    rewrite (read_single_live _ _ _ H'), (read_single_live _ _ _ H).
    cbn [stub set_sim_data].
    destruct (plcnext_pb2 G); [|reflexivity].
    destruct (stub self) as [s|]; [|reflexivity].
    destruct (Read s [k]) as [[|item rest]|e]; reflexivity.
Qed.

(** ** What the constructor leaves behind *)

Lemma connect_run (G : Globals) (L : Lib) (self : GrpcClient) :
  _connect G L self =
  match open_channel L (address self) with
  | Raise e => (Raise e, self, [])
  | Return c =>
      match plcnext_pb2_grpc G with
      | None => (Raise (name_error "plcnext_pb2_grpc"), set_channel c self, [])
      | Some mk =>
          match mk c with
          | Raise e => (Raise e, set_channel c self, [])
          | Return s =>
              (Return tt, set_connected true (set_stub s (set_channel c self)),
               [Log INFO ("gRPC connected to " +:+ address self)])
          end
      end
  end.
Proof.
  unfold _connect, open_channel.
  cbv [bind get_self lift update_self global logger emit ret raise].
  destruct (String.prefix "unix://" (address self));
    [destruct (local_channel_credentials L) as [[]|e]; [|reflexivity]|];
    cbn [fst snd];
    match goal with
    | |- context [secure_channel L ?a] => destruct (secure_channel L a) as [c|e]
    | |- context [insecure_channel L ?a] => destruct (insecure_channel L a) as [c|e]
    end; try reflexivity; cbn [fst snd];
    (destruct (plcnext_pb2_grpc G) as [mk|]; [|reflexivity]);
    cbn [fst snd]; destruct (mk c) as [s|e]; reflexivity.
Qed.

(** With the flag [GRPC_AVAILABLE] true, the constructor ends in one of
    three states. When the channel cannot be opened the object has no
    channel and is in simulation. When the channel opens but the stub
    class is not bound (as in the module of the repository) or raises,
    the object keeps the channel, has no stub and is in simulation. Only
    when the stub is built is the object connected. The two failures are
    logged as errors with the text of the exception. *)
Theorem constructor_connection_outcomes (G : Globals) (L : Lib) (addr : string) :
  GRPC_AVAILABLE G = Some true ->
  let fresh := {| address := addr; channel := None; stub := None;
                  _connected := false; _sim_data := _init_sim_data |} in
  (forall e, open_channel L addr = Raise e ->
     new_GrpcClient G L addr = (Return fresh, [connection_failed e])) /\
  (forall c, open_channel L addr = Return c -> plcnext_pb2_grpc G = None ->
     new_GrpcClient G L addr =
       (Return (set_channel c fresh),
        [connection_failed (name_error "plcnext_pb2_grpc")]) /\
     outcome_of (is_connected G (set_channel c fresh)) = Return false) /\
  (forall c mk e, open_channel L addr = Return c ->
     plcnext_pb2_grpc G = Some mk -> mk c = Raise e ->
     new_GrpcClient G L addr =
       (Return (set_channel c fresh), [connection_failed e])) /\
  (forall c mk s, open_channel L addr = Return c ->
     plcnext_pb2_grpc G = Some mk -> mk c = Return s ->
     new_GrpcClient G L addr =
       (Return {| address := addr; channel := Some c; stub := Some s;
                  _connected := true; _sim_data := _init_sim_data |},
        [Log INFO ("gRPC connected to " +:+ addr)]) /\
     outcome_of (is_connected G
       {| address := addr; channel := Some c; stub := Some s;
          _connected := true; _sim_data := _init_sim_data |}) = Return true).
Proof.
  intros Hflag fresh.
  assert (Hinit : new_GrpcClient G L addr =
    match _connect G L fresh with
    | (Return _, self1, t1) => (Return self1, t1)
    | (Raise e, self1, t1) =>
        (Return (set_connected false self1), t1 ++ [connection_failed e])
    end).
  { unfold new_GrpcClient, __init__. fold fresh.
    cbv [bind global]. rewrite Hflag. cbv [ret]. cbn [fst snd app].
    unfold try_except.
    destruct (_connect G L fresh) as [[[[]|e] self1] t1]; reflexivity. }
  rewrite Hinit, connect_run. change (address fresh) with addr.
  split; [|split; [|split]].
  - intros e ->. reflexivity.
  - intros c -> ->. split; [reflexivity|].
    rewrite is_connected_run. reflexivity.
  - intros c mk e -> -> ->. reflexivity.
  - intros c mk s -> -> ->. split; [reflexivity|].
    rewrite is_connected_run, Hflag. reflexivity.
Qed.

Lemma constructor_connection_outcomes_witness :
  new_GrpcClient
    {| GRPC_AVAILABLE := Some true; plcnext_pb2 := None; plcnext_pb2_grpc := None |}
    sample_lib "localhost:50051"
  = (Return {| address := "localhost:50051";
               channel := Some (InsecureChannel "localhost:50051");
               stub := None; _connected := false; _sim_data := _init_sim_data |},
     [Log ERROR "gRPC connection failed: name 'plcnext_pb2_grpc' is not defined. Switching to simulation mode."]).
Proof.
  exact (proj1 (proj1 (proj2 (constructor_connection_outcomes
           {| GRPC_AVAILABLE := Some true; plcnext_pb2 := None;
              plcnext_pb2_grpc := None |}
           sample_lib "localhost:50051" eq_refl))
         (InsecureChannel "localhost:50051") eq_refl eq_refl)).
Defined.

(** ** Decoding floats near zero *)

(** A wire float of magnitude at most [0.0000005] decodes to zero, and
    the zero keeps the sign of the wire value: a small negative value
    decodes to [-0.0]. *)
Theorem decode_small_float_is_signed_zero (s : bool) (m k : positive) :
  2 * (Zpos m * 10 ^ 6) <= 2 ^ Zpos k ->
  decode_value (doubleValue (S754_finite s m (Zneg k))) = PyFloat (S754_zero s) /\
  decode_value (floatValue (S754_finite s m (Zneg k))) = PyFloat (S754_zero s).
Proof.
  intros Hsmall.
  assert (Hz : scaled6 m (Zneg k) = 0).
  { unfold scaled6, div_half_even.
    assert (Hlt : Zpos m * 10 ^ 6 < 2 ^ Zpos k) by lia.
    rewrite (Z.div_small (Zpos m * 10 ^ 6) (2 ^ Zpos k)) by lia.
    rewrite (Z.mod_small (Zpos m * 10 ^ 6) (2 ^ Zpos k)) by lia.
    destruct (Z.compare_spec (2 * (Zpos m * 10 ^ 6)) (2 ^ Zpos k));
      [reflexivity | reflexivity | lia]. }
  unfold decode_value, py_round6. rewrite Hz. split; reflexivity.
Qed.

Lemma decode_small_float_is_signed_zero_witness :
  nearest_double true 1 (10 ^ 7) = S754_finite true 7555786372591432 (-76) /\
  decode_value (doubleValue (S754_finite true 7555786372591432 (-76)))
    = PyFloat (S754_zero true).
Proof.
  split; [vm_compute; reflexivity|].
  apply (decode_small_float_is_signed_zero true 7555786372591432 76).
  vm_compute. discriminate.
Defined.

(** * Properties of the web application *)

(** ** The event log *)

Lemma deque_append_length {A} (q : list A) (x : A) :
  length (deque_append q x) = Nat.min (S (length q)) maxlen.
Proof.
  unfold deque_append. rewrite length_drop, length_app. cbn [length].
  unfold maxlen. lia.
Qed.

(** The event log never holds more than 500 entries and its last entry
    is the event just added. While there is room every earlier entry is
    kept; when the log is full exactly the oldest entry is dropped. *)
Theorem add_event_keeps_newest (now msg lv : string) (event_log : list log_entry) :
  (length event_log <= maxlen)%nat ->
  let entry := {| timestamp := now; entry_level := lv; message := msg |} in
  let after := add_event now msg lv event_log in
  (length after <= maxlen)%nat /\
  List.last after entry = entry /\
  (exists older, after = older ++ [entry]) /\
  ((length event_log < maxlen)%nat -> after = event_log ++ [entry]) /\
  (length event_log = maxlen -> after = drop 1 event_log ++ [entry]).
Proof.
  intros Hlen entry after. subst after. unfold add_event. fold entry.
  assert (Hcases : (length event_log < maxlen)%nat \/ length event_log = maxlen)
    by lia.
  assert (Hroom : (length event_log < maxlen)%nat ->
                  deque_append event_log entry = event_log ++ [entry]).
  { intros Hlt. unfold deque_append. rewrite length_app. cbn [length].
    replace (length event_log + 1 - maxlen)%nat with 0%nat by lia. reflexivity. }
  assert (Hfull : length event_log = maxlen ->
                  deque_append event_log entry = drop 1 event_log ++ [entry]).
  { intros Heq. unfold deque_append. rewrite length_app. cbn [length].
    replace (length event_log + 1 - maxlen)%nat with 1%nat by lia.
    rewrite drop_app_le by (rewrite Heq; unfold maxlen; lia). reflexivity. }
  split; [rewrite deque_append_length; lia|].
  split; [|split; [|split; assumption]].
  - destruct Hcases as [H|H]; [rewrite (Hroom H) | rewrite (Hfull H)];
      apply last_last.
  - destruct Hcases as [H|H]; [rewrite (Hroom H) | rewrite (Hfull H)]; eauto.
Qed.

Lemma add_event_keeps_newest_witness :
  add_event "2026-01-01T00:00:00" "System started" "INFO" []
  = [ {| timestamp := "2026-01-01T00:00:00"; entry_level := "INFO";
         message := "System started" |} ].
Proof.
  apply (proj1 (proj2 (proj2 (proj2 (add_event_keeps_newest "2026-01-01T00:00:00"
           "System started" "INFO" [] ltac:(unfold maxlen; simpl; lia)))))).
  unfold maxlen. simpl. lia.
Defined.

(** After any run of events added to an empty log, the log holds the
    last 500 of them, oldest first. *)
Theorem event_log_is_last_500 (entries : list log_entry) :
  fold_left deque_append entries [] = drop (length entries - maxlen) entries.
Proof.
  assert (Hgen : forall es done : list log_entry,
            fold_left deque_append es (drop (length done - maxlen) done)
            = drop (length (done ++ es) - maxlen) (done ++ es)).
  { induction es as [|e es IH]; intros done.
    - rewrite app_nil_r. reflexivity.
    - cbn [fold_left].
      replace (deque_append (drop (length done - maxlen) done) e)
        with (drop (length (done ++ [e]) - maxlen) (done ++ [e])).
      + rewrite IH, <- app_assoc. reflexivity.
      + unfold deque_append.
        rewrite !length_app, length_drop. cbn [length].
        destruct (le_lt_dec (length done) maxlen) as [Hle|Hgt].
        * replace (length done - maxlen)%nat with 0%nat by lia.
          rewrite drop_0. f_equal. lia.
        * rewrite <- (drop_app_le done [e]) by lia. rewrite drop_drop.
          f_equal. lia. }
  exact (Hgen entries []).
Qed.

(** [get_events] returns the last [limit] entries for a positive
    [limit], 100 by default and when the parameter is not a number. A
    [limit] of zero returns the whole log, not nothing, and a negative
    [limit] returns the log without its first [-limit] entries. *)
Theorem get_events_limit (arg : option string) (event_log : list log_entry) :
  (0 < limit_arg arg ->
   get_events arg event_log
     = drop (length event_log - Z.to_nat (limit_arg arg)) event_log /\
   length (get_events arg event_log)
     = Nat.min (Z.to_nat (limit_arg arg)) (length event_log)) /\
  (limit_arg arg = 0 -> get_events arg event_log = event_log) /\
  (limit_arg arg < 0 ->
   get_events arg event_log = drop (Z.to_nat (- limit_arg arg)) event_log) /\
  limit_arg None = 100 /\
  (forall s, int_of_string s = None -> limit_arg (Some s) = 100) /\
  get_events arg (clear_events event_log) = [].
Proof.
  unfold get_events, slice_from. set (k := limit_arg arg). clearbody k.
  repeat split.
  - destruct (Z.ltb_spec (- k) 0); [|lia]. f_equal. lia.
  - destruct (Z.ltb_spec (- k) 0); [|lia]. rewrite length_drop. lia.
  - intros ->. destruct (Z.ltb_spec (- 0) 0); [lia|].
    rewrite Z.min_l by lia. reflexivity.
  - intros Hneg. destruct (Z.ltb_spec (- k) 0); [lia|].
    destruct (Z.le_gt_cases (- k) (Z.of_nat (length event_log))) as [Hle|Hgt].
    + rewrite Z.min_l by lia. reflexivity.
    + rewrite Z.min_r by lia. rewrite Nat2Z.id.
      rewrite !drop_ge by lia. reflexivity.
  - intros s Hs. unfold limit_arg. rewrite Hs. reflexivity.
  - unfold clear_events. apply drop_nil.
Qed.

(** ** The application without a client *)

(** In the module as the repository has it, [init_grpc_client] fails for
    every address: it returns [False], logs the NameError and leaves the
    global [grpc_client] unset. From then on every gRPC route answers
    503 without effect, [health_check] reports no client and
    simulation, and [control_status] reports not connected. *)
Theorem app_has_no_client (L : Lib) (environ : option string) (now : string)
    (req : json) (robot_count feed_count : nat) :
  init_grpc_client source_globals L environ None
    = (false, None,
       [Log ERROR "gRPC init failed: name 'GRPC_AVAILABLE' is not defined"]) /\
  read_variable source_globals req None
    = Served (Answer {| body := JObj [ ("error", JVal (PyStr "No gRPC client"));
                                       ("success", JVal (PyBool false)) ];
                        status := 503 |}, None, []) /\
  write_variable source_globals L req None
    = Served (Answer {| body := JObj [ ("error", JVal (PyStr "No gRPC client"));
                                       ("success", JVal (PyBool false)) ];
                        status := 503 |}, None, []) /\
  (forall v, v = live_system source_globals None \/
             v = live_robots source_globals robot_count None \/
             v = live_conveyors source_globals feed_count None ->
     v = (Answer {| body := JObj [ ("success", JVal (PyBool false));
                                   ("error", JVal (PyStr "No gRPC connection")) ];
                    status := 503 |}, None, [])) /\
  health_check source_globals now None
    = Answer {| body := JObj [ ("status", JVal (PyStr "ok"));
                               ("grpc", JVal (PyBool false));
                               ("simulation", JVal (PyBool true));
                               ("timestamp", JVal (PyStr now)) ];
                status := 200 |} /\
  control_status source_globals None
    = Answer {| body := JObj [ ("success", JVal (PyBool true));
                               ("connected", JVal (PyBool false));
                               ("running", JVal (PyBool false));
                               ("format_loaded", JVal PyNone);
                               ("simulation", JVal (PyBool true)) ];
                status := 200 |}.
Proof.
  repeat split.
  intros v [-> | [-> | ->]]; reflexivity.
Qed.

(** ** The read and write routes *)

Lemma body_not_dict (req : json) :
  json_truth req = true -> (forall members, req <> JObj members) ->
  json_get (body_or_empty req) "port_name" (JVal PyNone)
    = inr (Raised (Exn AttributeError
             ("'" +:+ json_type_name req +:+ "' object has no attribute 'get'"))).
Proof.
  intros Ht Hno. unfold body_or_empty. rewrite Ht.
  destruct req as [v|items|members]; [reflexivity | reflexivity|].
  exfalso. apply (Hno members). reflexivity.
Qed.

Lemma text_name_truth (n : string) :
  n <> EmptyString -> json_truth (JVal (PyStr n)) = true.
Proof. destruct n; [congruence | reflexivity]. Qed.


Lemma write_single_returns (G : Globals) (L : Lib) (c : GrpcClient) (n : string)
    (v : pyval) (dt : string) (live : bool) :
  outcome_of (is_connected G c) = Return live ->
  exists ok, write_single G L n v dt c
             = (Return ok, self_of (write_single G L n v dt c),
                trace_of (write_single G L n v dt c)).
Proof.
  intros H. destruct live.
  - rewrite (write_single_live _ _ _ _ _ _ H).
    destruct (outcome_of (_create_typed_value_try G L v dt c)); [|eauto].
    cbv zeta. destruct (stub c) as [s|]; [|eauto].
    destruct (Write s _); eauto.
  - rewrite (write_single_sim _ _ _ _ _ _ H). eauto.
Qed.



(** [/api/v1/write] for any JSON body, with a client whose
    [is_connected] returns. A body that is true and no object raises
    AttributeError, and a request whose [port_name] is absent or false is
    answered 400; the client is not called in either case. For a
    non-empty text [port_name], a scalar [value] ([None] when absent) and
    a text [type] ([AUTO] when absent) the body is [success] with the
    result of [write_single], and the status is 200 when it returned
    [True] and 500 when it returned [False]; in simulation it is always
    200 with [success] true, and the read route then returns the value
    written. In simulation a [port_name] that is a list or an object
    raises TypeError (the reply is 500) and the store is left as it
    was. *)
Theorem write_route_answers (G : Globals) (L : Lib) (req : json)
    (c : GrpcClient) (live : bool) :
  outcome_of (is_connected G c) = Return live ->
  (json_truth req = true -> (forall members, req <> JObj members) ->
   write_variable G L req (Some c)
     = Served (Fails (Raised (Exn AttributeError
                 ("'" +:+ json_type_name req +:+ "' object has no attribute 'get'"))),
               Some c, [])) /\
  (forall members, body_or_empty req = JObj members ->
   let port_name := default (JVal PyNone) (dict_find members "port_name") in
   let value := default (JVal PyNone) (dict_find members "value") in
   let data_type := default (JVal (PyStr "AUTO")) (dict_find members "type") in
   (json_truth port_name = false ->
    write_variable G L req (Some c)
      = Served (Answer {| body := JObj [ ("error", JVal (PyStr "Missing port_name"));
                                         ("success", JVal (PyBool false)) ];
                          status := 400 |}, Some c, [])) /\
   (forall n v dt, port_name = JVal (PyStr n) -> n <> EmptyString ->
      value = JVal v -> data_type = JVal (PyStr dt) ->
      let c' := self_of (write_single G L n v dt c) in
      (exists ok,
         outcome_of (write_single G L n v dt c) = Return ok /\
         write_variable G L req (Some c)
           = Served (Answer {| body := JObj [ ("success", JVal (PyBool ok)) ];
                               status := if ok then 200 else 500 |}, Some c',
                     trace_of (write_single G L n v dt c))) /\
      (live = false ->
       outcome_of (write_single G L n v dt c) = Return true /\
       read_variable G req (Some c')
         = Served (Answer {| body := JObj [ ("port_name", JVal (PyStr n));
                                            ("value", JVal v);
                                            ("success", JVal (PyBool true));
                                            ("simulated", JVal (PyBool true)) ];
                             status := 200 |}, Some c', []))) /\
   (live = false -> json_truth port_name = true ->
    (exists items, port_name = JArr items) \/ (exists ms, port_name = JObj ms) ->
    write_variable G L req (Some c)
      = Served (Fails (Raised (Exn TypeError
                  ("unhashable type: '" +:+ json_type_name port_name +:+ "'"))),
                Some c, []))).
Proof.
  intros H. split.
  - intros Ht Hno. unfold write_variable. cbv zeta.
    rewrite (body_not_dict req Ht Hno). reflexivity.
  - intros members Hbody port_name value data_type.
    subst port_name value data_type.
    split; [|split].
    + intros Hp. unfold write_variable. cbv zeta. rewrite Hbody. cbn [json_get].
      rewrite Hp. reflexivity.
    + intros n v dt Hn Hne Hv Hdt c'. subst c'. split.
      * destruct (write_single_returns G L c n v dt live H) as [ok Hok].
        exists ok. split; [rewrite Hok; reflexivity|].
        unfold write_variable. cbv zeta. rewrite Hbody. cbn [json_get].
        rewrite Hn, Hv, Hdt, (text_name_truth n Hne). cbn [negb].
        rewrite Hok. reflexivity.
      * intros ->. rewrite (write_single_sim _ _ _ _ _ _ H).
        split; [reflexivity|].
        unfold read_variable, self_of. cbn [fst snd]. rewrite Hbody.
        cbn [json_get]. rewrite Hn, (text_name_truth n Hne). cbn [negb].
        rewrite read_single_sim
          by (rewrite is_connected_set_sim_data; exact H).
        unfold sim_lookup. cbn [_sim_data set_sim_data].
        rewrite lookup_insert_eq. reflexivity.
    + intros -> Hp Hkind. unfold write_variable. cbv zeta. rewrite Hbody.
      cbn [json_get]. rewrite Hp. cbn [negb].
      destruct Hkind as [[items ->]|[ms ->]]; rewrite H; reflexivity.
Qed.

Lemma write_route_answers_witness :
  write_variable sim_globals sample_lib
    (JObj [ ("port_name", JVal (PyStr "X.Y")); ("value", JVal (PyInt 42)) ])
    (Some sim_client)
  = Served (Answer {| body := JObj [ ("success", JVal (PyBool true)) ];
                      status := 200 |},
            Some (self_of (write_single sim_globals sample_lib "X.Y" (PyInt 42)
                             "AUTO" sim_client)),
            trace_of (write_single sim_globals sample_lib "X.Y" (PyInt 42)
                        "AUTO" sim_client)).
Proof.
  destruct (proj1 (proj1 (proj2 (proj2 (write_route_answers sim_globals sample_lib
              (JObj [ ("port_name", JVal (PyStr "X.Y")); ("value", JVal (PyInt 42)) ])
              sim_client false eq_refl)
              [ ("port_name", JVal (PyStr "X.Y")); ("value", JVal (PyInt 42)) ]
              eq_refl))
              "X.Y" (PyInt 42) "AUTO" eq_refl ltac:(discriminate) eq_refl eq_refl))
    as (ok & Hok & Hrun).
  rewrite Hrun. assert (ok = true) as -> by (injection Hok as <-; reflexivity).
  reflexivity.
Defined.

(** ** Names, parts and groups *)

Lemma dict_find_set_eq {A} (d : list (string * A)) (k : string) (v : A) :
  dict_find (dict_set d k v) k = Some v.
Proof.
  induction d as [|[k' v'] r IH]; cbn [dict_set dict_find].
  - rewrite String.eqb_refl. reflexivity.
  - destruct (String.eqb k' k) eqn:E; cbn [dict_find]; rewrite E; auto.
Qed.

Lemma dict_find_set_ne {A} (d : list (string * A)) (k k' : string) (v : A) :
  k <> k' -> dict_find (dict_set d k v) k' = dict_find d k'.
Proof.
  intros Hne. induction d as [|[k0 v0] r IH]; cbn [dict_set dict_find].
  - destruct (String.eqb_spec k k'); [contradiction | reflexivity].
  - destruct (String.eqb_spec k0 k) as [->|Hk]; cbn [dict_find].
    + destruct (String.eqb_spec k k'); [contradiction | reflexivity].
    + rewrite IH. reflexivity.
Qed.

Lemma dict_get_is_find (d : pydict) (k : string) : dict_get d k = dict_find d k.
Proof. induction d as [|[k' v'] r IH]; [reflexivity|]. simpl. rewrite IH. reflexivity. Qed.

Lemma has_char_cons (c a : ascii) (s : string) :
  has_char c (String a s) = Ascii.eqb c a || has_char c s.
Proof. reflexivity. Qed.

Lemma has_char_app (c : ascii) (a b : string) :
  has_char c (a +:+ b) = has_char c a || has_char c b.
Proof.
  induction a as [|x a IH]; [reflexivity|].
  change (String x a +:+ b) with (String x (a +:+ b)).
  rewrite !has_char_cons, IH, orb_assoc. reflexivity.
Qed.

Lemma split_on_not_nil (sep : ascii) (s : string) : split_on sep s <> [].
Proof.
  destruct s as [|c r]; cbn [split_on]; [discriminate|].
  destruct (Ascii.eqb c sep); [discriminate|].
  destruct (split_on sep r); discriminate.
Qed.

(** Splitting at a separator splits the text before it and the text
    after it. *)
Lemma split_on_app_sep (sep : ascii) (x y : string) :
  split_on sep (x +:+ String sep y) = split_on sep x ++ split_on sep y.
Proof.
  induction x as [|c r IH].
  - change (EmptyString +:+ String sep y) with (String sep y).
    cbn [split_on]. rewrite Ascii.eqb_refl. reflexivity.
  - change (String c r +:+ String sep y) with (String c (r +:+ String sep y)).
    cbn [split_on]. destruct (Ascii.eqb c sep); rewrite IH; [reflexivity|].
    pose proof (split_on_not_nil sep r).
    destruct (split_on sep r) as [|h t]; [contradiction | reflexivity].
Qed.

Lemma split_on_free (sep : ascii) (s : string) :
  has_char sep s = false -> split_on sep s = [s].
Proof.
  induction s as [|c r IH]; [reflexivity|].
  rewrite has_char_cons. intros H. apply orb_false_iff in H as [Hc Hr].
  cbn [split_on]. rewrite Ascii.eqb_sym, Hc, (IH Hr). reflexivity.
Qed.

Lemma pretty_N_char_not_dot (x : N) : Ascii.eqb "." (pretty_N_char x) = false.
Proof.
  destruct x as [|p]; [reflexivity|].
  do 4 (try destruct p as [p|p|]); reflexivity.
Qed.

Lemma pretty_N_go_no_dot (x : N) (s : string) :
  has_char "." s = false -> has_char "." (pretty_N_go x s) = false.
Proof.
  revert s. induction (N.lt_wf_0 x) as [x _ IH]. intros s Hs.
  destruct (N.eq_dec x 0%N) as [->|Hx].
  - rewrite pretty_N_go_0. exact Hs.
  - rewrite pretty_N_go_step by lia. apply IH.
    + apply N.div_lt; lia.
    + rewrite has_char_cons, pretty_N_char_not_dot, Hs. reflexivity.
Qed.

Lemma fmt_02d_no_dot (i : nat) : has_char "." (fmt_02d i) = false.
Proof.
  assert (Hp : has_char "." (pretty i) = false).
  { unfold pretty, pretty_nat, pretty, pretty_N.
    destruct (decide (N.of_nat i = 0%N)); [reflexivity|].
    apply pretty_N_go_no_dot. reflexivity. }
  unfold fmt_02d. destruct (String.length (pretty i) <? 2)%nat; [|exact Hp].
  rewrite has_char_app, Hp. reflexivity.
Qed.

Lemma append_assoc (a b c : string) : (a +:+ b) +:+ c = a +:+ (b +:+ c).
Proof.
  induction a as [|x a IH]; [reflexivity|].
  change ((String x a +:+ b) +:+ c) with (String x ((a +:+ b) +:+ c)).
  rewrite IH. reflexivity.
Qed.

(** The parts of the name of a variable whose group and field hold no
    dot. *)
Lemma port_parts (group field : string) :
  has_char "." group = false -> has_char "." field = false ->
  split_on "." (port group field)
    = ["Arp"; "Plc"; "Eclr/MotoPick"; group; field].
Proof.
  intros Hg Hf. unfold port.
  change ("Arp.Plc.Eclr/MotoPick." +:+ group +:+ "." +:+ field)
    with ("Arp.Plc.Eclr/MotoPick" +:+ String "." (group +:+ String "." field)).
  rewrite !split_on_app_sep.
  rewrite (split_on_free "." field Hf), (split_on_free "." group Hg).
  reflexivity.
Qed.

Lemma unit_vars_items (kind : string) (fields : list string) (count : nat) :
  unit_vars kind fields count
    = map (fun gf => port gf.1 gf.2) (unit_items kind fields count).
Proof.
  unfold unit_vars, unit_items.
  induction (range 1 (count + 1)) as [|i r IH]; [reflexivity|].
  cbn [flat_map]. rewrite map_app, IH. f_equal.
  rewrite map_map. apply map_ext. intros f. cbn [fst snd].
  unfold port. rewrite !append_assoc. reflexivity.
Qed.

Lemma unit_items_in (kind : string) (fields : list string) (count : nat)
    (g f : string) :
  In (g, f) (unit_items kind fields count) <->
  exists i, (1 <= i <= count)%nat /\ g = kind +:+ fmt_02d i /\ In f fields.
Proof.
  unfold unit_items, range. rewrite in_flat_map. split.
  - intros (i & Hi & Hin). apply in_seq in Hi. apply in_map_iff in Hin.
    destruct Hin as (f' & E & Hf). injection E as <- <-.
    exists i. split; [lia|]. split; [reflexivity | exact Hf].
  - intros (i & Hi & -> & Hf). exists i. split; [apply in_seq; lia|].
    apply in_map_iff. exists f. split; [reflexivity | exact Hf].
Qed.

Lemma unit_items_no_dot (kind : string) (fields : list string) (count : nat) :
  has_char "." kind = false ->
  Forall (fun f => has_char "." f = false) fields ->
  Forall (fun gf => has_char "." gf.1 = false /\ has_char "." gf.2 = false)
         (unit_items kind fields count).
Proof.
  intros Hk Hf. apply List.Forall_forall. intros [g f] Hin.
  apply unit_items_in in Hin as (i & _ & -> & Hin). cbn [fst snd]. split.
  - rewrite has_char_app, Hk, fmt_02d_no_dot. reflexivity.
  - rewrite List.Forall_forall in Hf. apply Hf, Hin.
Qed.

Lemma group_field_put (data : list (string * pydict)) (g0 f0 : string)
    (v : pyval) (g f : string) :
  group_field (put_field data g0 f0 v) g f
    = if decide (g = g0 /\ f = f0) then Some v else group_field data g f.
Proof.
  unfold group_field, put_field.
  destruct (String.eqb_spec g0 g) as [<-|Hg].
  - rewrite dict_find_set_eq, dict_get_is_find.
    destruct (String.eqb_spec f0 f) as [<-|Hf].
    + rewrite dict_find_set_eq. destruct (decide _) as [_|n]; [reflexivity|].
      exfalso. apply n. split; reflexivity.
    + rewrite dict_find_set_ne by exact Hf.
      destruct (decide _) as [[_ E]|_]; [congruence|].
      destruct (dict_find data g0) as [grp|] eqn:E.
      * rewrite E. cbn [default]. rewrite dict_get_is_find. reflexivity.
      * rewrite dict_find_set_eq. reflexivity.
  - rewrite dict_find_set_ne by exact Hg.
    destruct (decide _) as [[E _]|_]; [congruence|].
    destruct (dict_find data g0); [reflexivity|].
    rewrite dict_find_set_ne by exact Hg. reflexivity.
Qed.

(** The loop of the two views on the records simulation returns: every
    requested group and field ends with the value read for its name,
    and nothing else is touched. *)
Lemma collect_groups_sim (V : string -> pyval) (items : list (string * string))
    (data : list (string * pydict)) :
  Forall (fun gf => has_char "." gf.1 = false /\ has_char "." gf.2 = false) items ->
  exists data',
    collect_groups
      (map (fun gf => sim_result (port gf.1 gf.2) (V (port gf.1 gf.2))) items) data
      = inl data' /\
    (forall g f, In (g, f) items -> group_field data' g f = Some (V (port g f))) /\
    (forall g f, ~ In (g, f) items -> group_field data' g f = group_field data g f) /\
    (items = [] -> data' = data).
Proof.
  intros Hall. revert data.
  induction Hall as [|[g0 f0] rest [Hg Hf] _ IH]; intros data.
  - exists data. split; [reflexivity|]. split; [intros g f []|]. split; reflexivity.
  - cbn [fst snd] in Hg, Hf.
    destruct (IH (put_field data g0 f0 (V (port g0 f0))))
      as (data' & Hrun & Hin & Hout & _).
    exists data'. split; [|split; [|split; [|discriminate]]].
    + cbn [map collect_groups fst snd].
      change (port_name_parts (sim_result (port g0 f0) (V (port g0 f0))))
        with (@inl _ failure (split_on "." (port g0 f0))).
      cbv iota beta. rewrite (port_parts g0 f0 Hg Hf). exact Hrun.
    + intros g f Hgf.
      destruct (in_dec (fun x y => decide (x = y)) (g, f) rest)
        as [Hr|Hr]; [apply Hin, Hr|].
      rewrite (Hout g f Hr), group_field_put.
      destruct Hgf as [E|Hgf]; [|contradiction].
      injection E as <- <-. destruct (decide _) as [_|n]; [reflexivity|].
      exfalso. apply n. split; reflexivity.
    + intros g f Hgf. rewrite (Hout g f), group_field_put.
      * destruct (decide _) as [[-> ->]|_]; [|reflexivity].
        exfalso. apply Hgf. left. reflexivity.
      * intros Hr. apply Hgf. right. exact Hr.
Qed.

Lemma live_units_sim (G : Globals) (c : GrpcClient) (key kind : string)
    (fields : list string) (count : nat) :
  outcome_of (is_connected G c) = Return false ->
  has_char "." kind = false ->
  Forall (fun f => has_char "." f = false) fields ->
  exists data,
    live_units G key kind fields count (Some c)
      = (Answer {| body := JObj [ (key, json_of_groups data);
                                  ("success", JVal (PyBool true));
                                  ("simulated", JVal (PyBool true)) ];
                   status := 200 |}, Some c, []) /\
    (forall i f, (1 <= i <= count)%nat -> In f fields ->
       group_field data (kind +:+ fmt_02d i) f
         = Some (sim_lookup c (port (kind +:+ fmt_02d i) f))) /\
    (forall g f v, group_field data g f = Some v ->
       exists i, (1 <= i <= count)%nat /\ g = kind +:+ fmt_02d i /\ In f fields) /\
    (count = 0%nat -> data = []).
Proof.
  intros H Hk Hf.
  destruct (collect_groups_sim (sim_lookup c) (unit_items kind fields count) []
              (unit_items_no_dot kind fields count Hk Hf))
    as (data & Hrun & Hin & Hout & Hnil).
  exists data. split; [|split; [|split]].
  - unfold live_units. rewrite (read_multiple_sim _ _ _ H).
    rewrite unit_vars_items, map_map. cbv beta. rewrite Hrun.
    unfold live_answer. rewrite H. reflexivity.
  - intros i f Hi Hin'. apply Hin. apply unit_items_in.
    exists i. split; [exact Hi|]. split; [reflexivity | exact Hin'].
  - intros g f v Hv.
    destruct (in_dec (fun x y => decide (x = y)) (g, f)
                     (unit_items kind fields count)) as [Hi|Hi].
    + apply unit_items_in, Hi.
    + rewrite (Hout g f Hi) in Hv. discriminate.
  - intros ->. apply Hnil. reflexivity.
Qed.

(** [live_robots] and [live_conveyors] in simulation, for a project of
    any size: the answer is 200 with [success] and [simulated] true, the
    client is unchanged and nothing is logged or called. For each unit
    [1 .. count] and each field the view asks for, the body holds, under
    the unit's name ([Robot03], [Conveyor12]) and the field, the value
    the store has for that variable ([None] when the store does not know
    it, as for a ninth robot); the body holds nothing else, and no unit
    at all for an empty project. *)
Theorem live_units_in_simulation (G : Globals) (c : GrpcClient)
    (robot_count feed_count : nat) :
  outcome_of (is_connected G c) = Return false ->
  (exists data,
     live_robots G robot_count (Some c)
       = (Answer {| body := JObj [ ("robots", json_of_groups data);
                                   ("success", JVal (PyBool true));
                                   ("simulated", JVal (PyBool true)) ];
                    status := 200 |}, Some c, []) /\
     (forall i f, (1 <= i <= robot_count)%nat ->
        In f ["Running"; "Error"; "PicksPerMinute"; "TotalPicks"] ->
        group_field data ("Robot" +:+ fmt_02d i) f
          = Some (sim_lookup c (port ("Robot" +:+ fmt_02d i) f))) /\
     (forall g f v, group_field data g f = Some v ->
        exists i, (1 <= i <= robot_count)%nat /\ g = "Robot" +:+ fmt_02d i /\
                  In f ["Running"; "Error"; "PicksPerMinute"; "TotalPicks"]) /\
     (robot_count = 0%nat -> data = [])) /\
  (exists data,
     live_conveyors G feed_count (Some c)
       = (Answer {| body := JObj [ ("conveyors", json_of_groups data);
                                   ("success", JVal (PyBool true));
                                   ("simulated", JVal (PyBool true)) ];
                    status := 200 |}, Some c, []) /\
     (forall i f, (1 <= i <= feed_count)%nat ->
        In f ["Running"; "Speed"; "ActualSpeed"] ->
        group_field data ("Conveyor" +:+ fmt_02d i) f
          = Some (sim_lookup c (port ("Conveyor" +:+ fmt_02d i) f))) /\
     (forall g f v, group_field data g f = Some v ->
        exists i, (1 <= i <= feed_count)%nat /\ g = "Conveyor" +:+ fmt_02d i /\
                  In f ["Running"; "Speed"; "ActualSpeed"]) /\
     (feed_count = 0%nat -> data = [])).
Proof.
  intros H. split.
  - apply (live_units_sim G c "robots" "Robot"); [exact H | reflexivity|].
    repeat constructor.
  - apply (live_units_sim G c "conveyors" "Conveyor"); [exact H | reflexivity|].
    repeat constructor.
Qed.

Lemma live_units_in_simulation_witness :
  exists data,
    live_robots sim_globals 2 (Some sim_client)
      = (Answer {| body := JObj [ ("robots", json_of_groups data);
                                  ("success", JVal (PyBool true));
                                  ("simulated", JVal (PyBool true)) ];
                   status := 200 |}, Some sim_client, []) /\
    group_field data "Robot02" "TotalPicks"
      = Some (sim_lookup sim_client "Arp.Plc.Eclr/MotoPick.Robot02.TotalPicks").
Proof.
  destruct (proj1 (live_units_in_simulation sim_globals sim_client 2 0 eq_refl))
    as (data & Hrun & Hin & _).
  exists data. split; [exact Hrun|].
  apply (Hin 2%nat "TotalPicks"); [lia|].
  right. right. right. left. reflexivity.
Defined.

(** ** The view of the system *)

Lemma find_snoc {A} (p : A -> bool) (l : list A) (x : A) :
  find p (l ++ [x])
    = match find p l with
      | Some y => Some y
      | None => if p x then Some x else None
      end.
Proof.
  induction l as [|a l IH]; [reflexivity|].
  cbn [app find]. destruct (p a); [reflexivity | exact IH].
Qed.

(** The loop of [live_system] on the records of a live reply: each
    field ends with the value of the last item reported under it. *)
Lemma collect_last_live (items : list DataItem) (data0 : pydict) :
  exists data,
    collect_last
      (map (fun it => live_result (portName it) (decode_value (value it))) items)
      data0 = inl data /\
    (forall k, dict_get data k
       = match find (fun it => String.eqb (field_of (portName it)) k) (rev items) with
         | Some it => Some (decode_value (value it))
         | None => dict_get data0 k
         end) /\
    (items = [] -> data = data0).
Proof.
  revert data0. induction items as [|it rest IH]; intros data0.
  - exists data0. split; [reflexivity|]. split; [|reflexivity].
    intros k. reflexivity.
  - destruct (IH (dict_set data0 (field_of (portName it)) (decode_value (value it))))
      as (data & Hrun & Hget & _).
    exists data. split; [exact Hrun|]. split; [|discriminate].
    intros k. rewrite Hget. cbn [rev]. rewrite find_snoc.
    destruct (find _ (rev rest)); [reflexivity|].
    rewrite !dict_get_is_find.
    destruct (String.eqb_spec (field_of (portName it)) k) as [<-|Hne].
    + apply dict_find_set_eq.
    + apply dict_find_set_ne, Hne.
Qed.

Lemma live_system_sim (G : Globals) (c : GrpcClient) :
  outcome_of (is_connected G c) = Return false ->
  live_system G (Some c)
    = (Answer
         {| body := JObj
              [ ("system", JObj
                  [ ("Running",
                     JVal (sim_lookup c "Arp.Plc.Eclr/MotoPick.System.Running"));
                    ("Error",
                     JVal (sim_lookup c "Arp.Plc.Eclr/MotoPick.System.Error"));
                    ("PicksPerMinute",
                     JVal (sim_lookup c "Arp.Plc.Eclr/MotoPick.System.PicksPerMinute"));
                    ("TotalPicks",
                     JVal (sim_lookup c "Arp.Plc.Eclr/MotoPick.System.TotalPicks"));
                    ("MissedItems",
                     JVal (sim_lookup c "Arp.Plc.Eclr/MotoPick.System.MissedItems")) ]);
                ("success", JVal (PyBool true));
                ("simulated", JVal (PyBool true)) ];
            status := 200 |}, Some c, []).
Proof.
  intros H. unfold live_system. rewrite (read_multiple_sim _ _ _ H).
  cbv iota beta.
  replace (collect_last
             (map (fun n => sim_result n (sim_lookup c n)) system_ports) [])
    with (inl (B := failure)
            [ ("Running", sim_lookup c "Arp.Plc.Eclr/MotoPick.System.Running");
              ("Error", sim_lookup c "Arp.Plc.Eclr/MotoPick.System.Error");
              ("PicksPerMinute",
               sim_lookup c "Arp.Plc.Eclr/MotoPick.System.PicksPerMinute");
              ("TotalPicks", sim_lookup c "Arp.Plc.Eclr/MotoPick.System.TotalPicks");
              ("MissedItems",
               sim_lookup c "Arp.Plc.Eclr/MotoPick.System.MissedItems") ])
    by reflexivity.
  unfold live_answer. rewrite H. reflexivity.
Qed.

(** [live_system] with a client whose [is_connected] returns: the
    answer is always 200 with [success] true, [simulated] telling the
    mode, and the client unchanged. In simulation the body holds the
    five system values of the store under the last part of their names.
    In live mode a read that failed is not reported as a failure: when
    the message module is not bound, the object has no stub or the
    [Read] call raises, the five fields are [None], [success] is still
    true and the error is only logged. A live reply is taken as it
    comes: each item is filed under what follows the last dot of its own
    name, a later item replacing an earlier one of the same field, so
    that names the reply leaves out are left out of the body and an
    empty reply gives an empty object. *)
Theorem live_system_answers (G : Globals) (c : GrpcClient) (live : bool) :
  outcome_of (is_connected G c) = Return live ->
  (exists data t,
     live_system G (Some c)
       = (Answer {| body := JObj [ ("system", json_of_dict data);
                                   ("success", JVal (PyBool true));
                                   ("simulated", JVal (PyBool (negb live))) ];
                    status := 200 |}, Some c, t)) /\
  (live = false ->
   live_system G (Some c)
     = (Answer
          {| body := JObj
               [ ("system", JObj
                   [ ("Running",
                      JVal (sim_lookup c "Arp.Plc.Eclr/MotoPick.System.Running"));
                     ("Error",
                      JVal (sim_lookup c "Arp.Plc.Eclr/MotoPick.System.Error"));
                     ("PicksPerMinute",
                      JVal (sim_lookup c "Arp.Plc.Eclr/MotoPick.System.PicksPerMinute"));
                     ("TotalPicks",
                      JVal (sim_lookup c "Arp.Plc.Eclr/MotoPick.System.TotalPicks"));
                     ("MissedItems",
                      JVal (sim_lookup c "Arp.Plc.Eclr/MotoPick.System.MissedItems")) ]);
                 ("success", JVal (PyBool true));
                 ("simulated", JVal (PyBool true)) ];
             status := 200 |}, Some c, [])) /\
  (live = true ->
   let unread (t : list event) : view :=
     (Answer
        {| body := JObj
             [ ("system", JObj [ ("Running", JVal PyNone);
                                 ("Error", JVal PyNone);
                                 ("PicksPerMinute", JVal PyNone);
                                 ("TotalPicks", JVal PyNone);
                                 ("MissedItems", JVal PyNone) ]);
               ("success", JVal (PyBool true));
               ("simulated", JVal (PyBool false)) ];
           status := 200 |}, Some c, t) in
   (plcnext_pb2 G = None ->
    live_system G (Some c)
      = unread [read_multiple_error (name_error "plcnext_pb2")]) /\
   (plcnext_pb2 G <> None -> stub c = None ->
    live_system G (Some c) = unread [read_multiple_error (no_stub "Read")]) /\
   (forall s e, plcnext_pb2 G <> None -> stub c = Some s ->
      Read s system_ports = Raise e ->
      live_system G (Some c)
        = unread [RpcRead system_ports; read_multiple_error e]) /\
   (forall s items, plcnext_pb2 G <> None -> stub c = Some s ->
      Read s system_ports = Return items ->
      exists data,
        live_system G (Some c)
          = (Answer {| body := JObj [ ("system", json_of_dict data);
                                      ("success", JVal (PyBool true));
                                      ("simulated", JVal (PyBool false)) ];
                       status := 200 |}, Some c, [RpcRead system_ports]) /\
        (forall k, dict_get data k
           = match find (fun it => String.eqb (field_of (portName it)) k)
                        (rev items) with
             | Some it => Some (decode_value (value it))
             | None => None
             end) /\
        (items = [] -> data = []))).
Proof.
  intros H.
  pose proof (live_system_sim G c) as Hsim.
  assert (Hfail : forall e t, live = true ->
            read_multiple G system_ports c
              = (Return (map (fun n => failed_result n (exn_text e)) system_ports),
                 c, t) ->
            live_system G (Some c)
              = (Answer
                   {| body := JObj
                        [ ("system", JObj [ ("Running", JVal PyNone);
                                            ("Error", JVal PyNone);
                                            ("PicksPerMinute", JVal PyNone);
                                            ("TotalPicks", JVal PyNone);
                                            ("MissedItems", JVal PyNone) ]);
                          ("success", JVal (PyBool true));
                          ("simulated", JVal (PyBool false)) ];
                      status := 200 |}, Some c, t)).
  { intros e t -> Hrun. unfold live_system. rewrite Hrun. cbv iota beta.
    replace (collect_last
               (map (fun n => failed_result n (exn_text e)) system_ports) [])
      with (inl (B := failure)
              [ ("Running", PyNone); ("Error", PyNone); ("PicksPerMinute", PyNone);
                ("TotalPicks", PyNone); ("MissedItems", PyNone) ])
      by reflexivity.
    unfold live_answer. rewrite H. reflexivity. }
  assert (Hitems : forall s items, live = true -> plcnext_pb2 G <> None ->
            stub c = Some s -> Read s system_ports = Return items ->
            exists data,
              live_system G (Some c)
                = (Answer {| body := JObj [ ("system", json_of_dict data);
                                            ("success", JVal (PyBool true));
                                            ("simulated", JVal (PyBool false)) ];
                             status := 200 |}, Some c, [RpcRead system_ports]) /\
              (forall k, dict_get data k
                 = match find (fun it => String.eqb (field_of (portName it)) k)
                              (rev items) with
                   | Some it => Some (decode_value (value it))
                   | None => None
                   end) /\
              (items = [] -> data = [])).
  { intros s items -> Hpb Hs Hr.
    destruct (collect_last_live items []) as (data & Hrun & Hget & Hnil).
    exists data. split; [|split; [exact Hget | exact Hnil]].
    unfold live_system. rewrite (read_multiple_live _ _ _ H), Hs, Hr.
    destruct (plcnext_pb2 G); [|congruence].
    cbv iota beta. rewrite Hrun. unfold live_answer. rewrite H. reflexivity. }
  split; [|split; [intros ->; exact (Hsim H)|]].
  - set (unread := [ ("Running", PyNone); ("Error", PyNone);
                     ("PicksPerMinute", PyNone); ("TotalPicks", PyNone);
                     ("MissedItems", PyNone) ] : pydict).
    destruct live.
    + pose proof (read_multiple_live _ _ system_ports H) as Hrun.
      destruct (plcnext_pb2 G) as [pb|] eqn:Hpb.
      * destruct (stub c) as [s|] eqn:Hs.
        -- destruct (Read s system_ports) as [items|e] eqn:Hr.
           ++ assert (Hne : Some pb <> None) by discriminate.
              destruct (Hitems s items eq_refl Hne eq_refl Hr)
                as (data & Hd & _).
              exists data. eexists. exact Hd.
           ++ exists unread. eexists. apply (Hfail e _ eq_refl Hrun).
        -- exists unread. eexists. apply (Hfail _ _ eq_refl Hrun).
      * exists unread. eexists. apply (Hfail _ _ eq_refl Hrun).
    + exists [ ("Running", sim_lookup c "Arp.Plc.Eclr/MotoPick.System.Running");
               ("Error", sim_lookup c "Arp.Plc.Eclr/MotoPick.System.Error");
               ("PicksPerMinute",
                sim_lookup c "Arp.Plc.Eclr/MotoPick.System.PicksPerMinute");
               ("TotalPicks", sim_lookup c "Arp.Plc.Eclr/MotoPick.System.TotalPicks");
               ("MissedItems",
                sim_lookup c "Arp.Plc.Eclr/MotoPick.System.MissedItems") ].
      eexists. exact (Hsim H).
  - intros ->. cbv zeta. pose proof (read_multiple_live _ _ system_ports H) as Hrun.
    split; [|split; [|split]].
    + intros Hpb. rewrite Hpb in Hrun. apply (Hfail _ _ eq_refl Hrun).
    + intros Hpb Hs. rewrite Hs in Hrun.
      destruct (plcnext_pb2 G); [|congruence]. apply (Hfail _ _ eq_refl Hrun).
    + intros s e Hpb Hs Hr. rewrite Hs, Hr in Hrun.
      destruct (plcnext_pb2 G); [|congruence]. apply (Hfail _ _ eq_refl Hrun).
    + intros s items Hpb Hs Hr. apply (Hitems s items eq_refl Hpb Hs Hr).
Qed.

Lemma live_system_answers_witness :
  live_system live_globals (Some broken_client)
  = (Answer
       {| body := JObj
            [ ("system", JObj [ ("Running", JVal PyNone);
                                ("Error", JVal PyNone);
                                ("PicksPerMinute", JVal PyNone);
                                ("TotalPicks", JVal PyNone);
                                ("MissedItems", JVal PyNone) ]);
              ("success", JVal (PyBool true));
              ("simulated", JVal (PyBool false)) ];
          status := 200 |}, Some broken_client,
     [RpcRead system_ports; read_multiple_error (Exn RpcError "Deadline Exceeded")]).
Proof.
  apply (proj1 (proj2 (proj2 (proj2 (proj2 (live_system_answers live_globals
           broken_client true eq_refl)) eq_refl)))
           failing_stub (Exn RpcError "Deadline Exceeded"));
    try reflexivity; discriminate.
Defined.
